(** * Credential and service-handle management of the Schedule-Agent

    Shallow embedding of [src/config.py] ([get_google_scopes],
    [validate_config]), [src/google_auth.py] ([GoogleServiceManager],
    [get_google_service], [validate_credentials], [refresh_credentials])
    and [src/simple_google_auth.py] ([get_google_service]).

    The Python code is stateful and fallible.  It is embedded in a small
    state-and-exception monad [M]: the state holds the manager's service
    cache ([self._services]), the files on disk, a log of every call that
    leaves the process (with its outcome) and the counter that gives each
    built service object its identity.  A raised exception keeps the state
    reached so far, as in Python.  The Google client libraries are not part
    of the repository: they are the fields of [Env], functions of the
    history of calls so far and of their arguments. *)

From stdpp Require Import gmap strings list pretty.

Open Scope Z_scope.
Open Scope string_scope.
Open Scope list_scope.

(** ** Exceptions and results *)

(** [GoogleAuthError] is the one exception class the module defines; every
    other exception comes from a library or from the operating system.

    Both cases are subclasses of Python's [Exception]: a [PyExc] always
    stands for an instance of [Exception], which is what the three
    [except Exception] clauses of the module (lines 76, 108 and 146) catch.
    A [BaseException] that is no [Exception] ([KeyboardInterrupt],
    [SystemExit], [GeneratorExit]) passes through those clauses and leaves
    every function below; it has no counterpart here, the library calls of
    [Env] being taken to raise instances of [Exception] only.  Every
    statement about what a function raises or catches is therefore a
    statement about instances of [Exception]. *)
Inductive ExcClass :=
  | GoogleAuthError
  | LibraryError (cls : string).

(** An exception object, an instance of [Exception]: its class and
    [str(e)]. *)
Record PyExc := { exc_class : ExcClass; exc_msg : string }.

Inductive Res (A : Type) :=
  | Ok (a : A)
  | Raise (e : PyExc).
Arguments Ok {A} a.
Arguments Raise {A} e.

(** ** Data of the Google client libraries *)

(** What the code observes of a credentials object: the properties [valid]
    and [expired], the attribute [refresh_token] and [to_json()]. *)
Record Credentials := {
  cred_scopes : list string;
  valid : bool;
  expired : bool;
  refresh_token : option string;
  to_json : string
}.

(** An [InstalledAppFlow] made from a client-secrets file. *)
Record Flow := { flow_client_config : string; flow_scopes : list string }.

(** A service object returned by [build]; [svc_id] is the identity of the
    Python object. *)
Record Service := {
  svc_id : nat;
  svc_api : string;
  svc_version : string;
  svc_creds : Credentials
}.

(** ** Settings ([config.Settings], the fields the module reads) *)

Record Settings := {
  google_service_account_path : option string;
  google_credentials_path : string;
  google_token_path : string;
  gmail_scopes : list string;
  calendar_scopes : list string;
  drive_scopes : list string
}.

Definition default_settings : Settings := {|
  google_service_account_path := None;
  google_credentials_path := "credentials.json";
  google_token_path := "token.json";
  gmail_scopes := [ "https://www.googleapis.com/auth/gmail.readonly";
                    "https://www.googleapis.com/auth/gmail.modify";
                    "https://www.googleapis.com/auth/gmail.send" ];
  calendar_scopes := [ "https://www.googleapis.com/auth/calendar" ];
  drive_scopes := [ "https://www.googleapis.com/auth/drive.readonly";
                    "https://www.googleapis.com/auth/drive.file" ]
|}.

(** ** The log of observable calls *)

Inductive LogLevel := DEBUG | INFO | WARNING | ERROR.

(** One entry per logging call and per call that touches the disk or the
    network, with the outcome of the call. *)
Inductive Event :=
  | EvLog (level : LogLevel) (msg : string)
  | EvExists (path : string) (found : bool)
  | EvServiceAccountLoad (path : string) (scopes : list string) (r : Res Credentials)
  | EvTokenLoad (path : string) (scopes : list string) (r : Res Credentials)
  | EvRefresh (c : Credentials) (r : Res Credentials)
  | EvClientSecretsLoad (path : string) (scopes : list string) (r : Res Flow)
  | EvRunLocalServer (f : Flow) (r : Res Credentials)
  | EvOpenWrite (path : string) (r : Res unit)
  | EvWrite (path : string) (content : string)
  | EvBuild (api_name api_version : string) (c : Credentials) (r : Res Service)
  | EvGetProfile (s : Service) (user_id : string) (r : Res (gmap string string)).

(** Calls that read or write credential storage. *)
Definition is_storage (e : Event) : bool :=
  match e with
  | EvExists _ _ | EvServiceAccountLoad _ _ _ | EvTokenLoad _ _ _
  | EvClientSecretsLoad _ _ _ | EvOpenWrite _ _ | EvWrite _ _ => true
  | _ => false
  end.

(** Calls that go to the network (identity provider, consent flow,
    discovery, API backend). *)
Definition is_network (e : Event) : bool :=
  match e with
  | EvRefresh _ _ | EvRunLocalServer _ _ | EvBuild _ _ _ _ | EvGetProfile _ _ _ => true
  | _ => false
  end.

Definition is_io (e : Event) : bool := is_storage e || is_network e.

Definition is_refresh (e : Event) : bool :=
  match e with EvRefresh _ _ => true | _ => false end.

(** The interactive consent flow: loading the client secrets and running
    the local server. *)
Definition is_interactive (e : Event) : bool :=
  match e with
  | EvClientSecretsLoad _ _ _ | EvRunLocalServer _ _ => true
  | _ => false
  end.

(** Calls made with the credentials once they are resolved. *)
Definition is_service_call (e : Event) : bool :=
  match e with EvBuild _ _ _ _ | EvGetProfile _ _ _ => true | _ => false end.

Definition is_service_account_load (e : Event) : bool :=
  match e with EvServiceAccountLoad _ _ _ => true | _ => false end.

Definition is_token_load (e : Event) : bool :=
  match e with EvTokenLoad _ _ _ => true | _ => false end.

Definition is_token_write (e : Event) : bool :=
  match e with EvOpenWrite _ _ | EvWrite _ _ => true | _ => false end.

(** ** The environment: libraries and runtime

    Each library call is a function of the history (the log so far, most
    recent entry first) and of its arguments, and either returns or raises
    an instance of [Exception].  [hash_tuple] is Python's builtin [hash] on
    [tuple(scopes)], fixed for the life of the process. *)
Record Env := {
  hash_tuple : list string -> Z;
  from_service_account_file : list Event -> option string -> list string -> Res Credentials;
  from_authorized_user_file : list Event -> option string -> list string -> Res Credentials;
  refresh : list Event -> Credentials -> Res Credentials;
  from_client_secrets_file : list Event -> option string -> list string -> Res Flow;
  run_local_server : list Event -> Flow -> Res Credentials;
  open_w : list Event -> string -> Res unit;
  build : list Event -> string -> string -> Credentials -> Res unit;
  getProfile_execute : list Event -> Service -> string -> Res (gmap string string)
}.

(** ** Program state *)

Record State := {
  _services : gmap string Service;
  fs : gmap string string;
  trace : list Event;
  next_id : nat
}.

Definition with_services (m : gmap string Service) (st : State) : State :=
  {| _services := m; fs := fs st; trace := trace st; next_id := next_id st |}.

Definition with_fs (f : gmap string string) (st : State) : State :=
  {| _services := _services st; fs := f; trace := trace st; next_id := next_id st |}.

Definition with_trace (t : list Event) (st : State) : State :=
  {| _services := _services st; fs := fs st; trace := t; next_id := next_id st |}.

Definition with_next_id (n : nat) (st : State) : State :=
  {| _services := _services st; fs := fs st; trace := trace st; next_id := n |}.

(** ** The monad *)

Definition M (A : Type) : Type := State -> Res A * State.

Definition ret {A} (a : A) : M A := fun st => (Ok a, st).

Definition bind {A B} (m : M A) (k : A -> M B) : M B :=
  fun st =>
    match m st with
    | (Ok a, st') => k a st'
    | (Raise e, st') => (Raise e, st')
    end.

Definition raise {A} (e : PyExc) : M A := fun st => (Raise e, st).

(** [try: body except Exception as e: handler e].  The handler takes
    every [PyExc], since each is an instance of [Exception]; what Python
    lets through such a clause, an interrupt or an exit request, is
    outside [Res]. *)
Definition try_except {A} (body : M A) (handler : PyExc -> M A) : M A :=
  fun st =>
    match body st with
    | (Ok a, st') => (Ok a, st')
    | (Raise e, st') => handler e st'
    end.

Declare Scope py_scope.
Delimit Scope py_scope with py.
Notation "x <- c1 ;; c2" := (bind c1 (fun x => c2))
  (at level 100, c1 at next level, right associativity) : py_scope.
Notation "c1 ;; c2" := (bind c1 (fun _ => c2))
  (at level 100, right associativity) : py_scope.
Open Scope py_scope.

Definition emit (e : Event) : M unit :=
  fun st => (Ok tt, with_trace (e :: trace st) st).

(** A call into a library: ask the environment, log call and outcome. *)
Definition call {A} (outcome : list Event -> Res A) (ev : Res A -> Event) : M A :=
  fun st => let r := outcome (trace st) in (r, with_trace (ev r :: trace st) st).

(** Truth value of an [Optional[str]]: [None] and the empty string are false. *)
Definition truthy (o : option string) : bool :=
  match o with
  | Some s => negb (String.eqb s "")
  | None => false
  end.

(** ** logger.py *)

Definition logger_debug (msg : string) : M unit := emit (EvLog DEBUG msg).
Definition logger_info (msg : string) : M unit := emit (EvLog INFO msg).
Definition logger_warning (msg : string) : M unit := emit (EvLog WARNING msg).
Definition logger_error (msg : string) : M unit := emit (EvLog ERROR msg).

Definition log_api_call (service operation : string) : M unit :=
  logger_info ("API call to " +:+ service +:+ ": " +:+ operation).

Definition log_error (error : PyExc) (context : string) : M unit :=
  logger_error ("Error in " +:+ context +:+ ": " +:+ exc_msg error).

(** ** The operating system *)

Definition file_exists (files : gmap string string) (path : string) : bool :=
  match files !! path with Some _ => true | None => false end.

(** [os.path.exists(path)]. *)
Definition os_path_exists (path : string) : M bool :=
  fun st =>
    let found := file_exists (fs st) path in
    (Ok found, with_trace (EvExists path found :: trace st) st).

(** ** config.py *)

(** [get_google_scopes]: the dict literal, then [.get(service, [])]. *)
Definition get_google_scopes (settings : Settings) (service : string) : list string :=
  let scope_mapping : gmap string (list string) :=
    <["drive" := drive_scopes settings]>
      (<["calendar" := calendar_scopes settings]>
        (<["gmail" := gmail_scopes settings]> ∅)) in
  default [] (scope_mapping !! service).

(** ** google_auth.py *)

Section GoogleAuth.

Variable settings : Settings.
Variable env : Env.

(** A library call that reads the file at [path]. *)
Definition read_call {A} (outcome : list Event -> option string -> Res A)
    (path : string) (ev : Res A -> Event) : M A :=
  fun st =>
    let r := outcome (trace st) (fs st !! path) in
    (r, with_trace (ev r :: trace st) st).

(** [with open(path, 'w') as f: f.write(content)].  Opening may fail and
    then leaves the disk as it was; mode ['w'] truncates, so after the
    write the file holds [content] and nothing else. *)
Definition write_text (path content : string) : M unit :=
  call (fun h => open_w env h path) (EvOpenWrite path) ;;
  (fun st => (Ok tt, with_trace (EvWrite path content :: trace st)
                       (with_fs (<[path := content]> (fs st)) st))).

(** Lines 45-51 of [_get_credentials]: try to load the existing token.
    A load that raises is logged and leaves [creds = None]. *)
Definition load_token (scopes : list string) : M (option Credentials) :=
  let token_path := google_token_path settings in
  token_found <- os_path_exists token_path ;;
  if token_found then
    try_except
      (c <- read_call (fun h content => from_authorized_user_file env h content scopes)
              token_path (EvTokenLoad token_path scopes) ;;
       logger_debug "Loaded existing credentials from token file" ;;
       ret (Some c))
      (fun e =>
         logger_warning ("Failed to load existing credentials: " +:+ exc_msg e) ;;
         ret None)
  else ret None.

(** Lines 59-67: the interactive consent flow. *)
Definition oauth_flow (scopes : list string) : M Credentials :=
  let credentials_path := google_credentials_path settings in
  logger_info "Creating new credentials via OAuth flow" ;;
  found <- os_path_exists credentials_path ;;
  if negb found then
    raise {| exc_class := GoogleAuthError;
             exc_msg := "Credentials file not found: " +:+ credentials_path |}
  else
    flow <- read_call (fun h content => from_client_secrets_file env h content scopes)
              credentials_path (EvClientSecretsLoad credentials_path scopes) ;;
    call (fun h => run_local_server env h flow) (EvRunLocalServer flow).

(** Lines 69-72: save the credentials for future use. *)
Definition save_credentials (creds : Credentials) : M unit :=
  write_text (google_token_path settings) (to_json creds) ;;
  logger_info "Credentials saved for future use".

(** [GoogleServiceManager._get_credentials]. *)
Definition _get_credentials (scopes : list string) : M Credentials :=
  let sa_path := default "" (google_service_account_path settings) in
  try_except
    (use_service_account <-
       (if truthy (google_service_account_path settings)
        then os_path_exists sa_path else ret false) ;;
     if use_service_account then
       logger_info "Using service account authentication" ;;
       creds <- read_call (fun h content => from_service_account_file env h content scopes)
                  sa_path (EvServiceAccountLoad sa_path scopes) ;;
       ret creds
     else
       logger_info "Using OAuth2 authentication" ;;
       creds <- load_token scopes ;;
       match creds with
       | Some c =>
           if valid c then ret c
           else if expired c && truthy (refresh_token c) then
             logger_info "Refreshing expired credentials" ;;
             creds <- call (fun h => refresh env h c) (EvRefresh c) ;;
             save_credentials creds ;;
             ret creds
           else
             creds <- oauth_flow scopes ;;
             save_credentials creds ;;
             ret creds
       | None =>
           creds <- oauth_flow scopes ;;
           save_credentials creds ;;
           ret creds
       end)
    (fun e =>
       log_error e "Google authentication" ;;
       raise {| exc_class := GoogleAuthError;
                exc_msg := "Failed to authenticate with Google: " +:+ exc_msg e |}).

(** The cache key of line 88:
    [f"{api_name}_{api_version}_{hash(tuple(scopes))}"]. *)
Definition service_key (api_name api_version : string) (scopes : list string) : string :=
  api_name +:+ "_" +:+ api_version +:+ "_" +:+ pretty (hash_tuple env scopes).

(** [googleapiclient.discovery.build]: a new object on success. *)
Definition discovery_build (api_name api_version : string) (creds : Credentials) : M Service :=
  fun st =>
    match build env (trace st) api_name api_version creds with
    | Ok _ =>
        let service := {| svc_id := next_id st; svc_api := api_name;
                          svc_version := api_version; svc_creds := creds |} in
        (Ok service,
         with_next_id (S (next_id st))
           (with_trace (EvBuild api_name api_version creds (Ok service) :: trace st) st))
    | Raise e =>
        (Raise e, with_trace (EvBuild api_name api_version creds (Raise e) :: trace st) st)
    end.

(** Lines 84-85: the scopes a call works with; [None] is the omitted
    argument. *)
Definition requested_scopes (api_name : string) (scopes : option (list string))
    : list string :=
  match scopes with
  | None => get_google_scopes settings api_name
  | Some l => l
  end.

(** [GoogleServiceManager.get_service]. *)
Definition get_service (api_name api_version : string)
    (scopes : option (list string)) : M Service :=
  try_except
    (let scopes := requested_scopes api_name scopes in
     let key := service_key api_name api_version scopes in
     fun st =>
       match _services st !! key with
       | Some service =>
           (logger_debug ("Returning cached service for " +:+ api_name) ;;
            ret service) st
       | None =>
           (creds <- _get_credentials scopes ;;
            log_api_call "Google" ("build_" +:+ api_name) ;;
            service <- discovery_build api_name api_version creds ;;
            (fun st' => (Ok tt, with_services (<[key := service]> (_services st')) st')) ;;
            logger_info ("Created new service for " +:+ api_name +:+ " v" +:+ api_version) ;;
            ret service) st
       end)
    (fun e =>
       log_error e ("Google service creation for " +:+ api_name) ;;
       raise {| exc_class := GoogleAuthError;
                exc_msg := "Failed to create " +:+ api_name +:+ " service: " +:+ exc_msg e |}).

(** [GoogleServiceManager.clear_cache]. *)
Definition clear_cache : M unit :=
  (fun st => (Ok tt, with_services ∅ st)) ;;
  logger_info "Cleared service cache".

(** Module-level [get_google_service], on the global [service_manager]. *)
Definition get_google_service (api_name api_version : string)
    (scopes : option (list string)) : M Service :=
  get_service api_name api_version scopes.

(** [validate_credentials]. *)
Definition validate_credentials : M bool :=
  try_except
    (service <- get_google_service "gmail" "v1" None ;;
     profile <- call (fun h => getProfile_execute env h service "me")
                  (EvGetProfile service "me") ;;
     logger_info ("Credentials validated for user: "
                  +:+ default "Unknown" (profile !! "emailAddress")) ;;
     ret true)
    (fun e => log_error e "Credential validation" ;; ret false).

(** [refresh_credentials]. *)
Definition refresh_credentials : M bool :=
  try_except
    (clear_cache ;; validate_credentials)
    (fun e => log_error e "Credential refresh" ;; ret false).

End GoogleAuth.

(** ** Observing a run *)

(** The log entries a run from [st] to [st'] added, most recent first. *)
Definition new_events (st st' : State) : list Event :=
  take (length (trace st') - length (trace st)) (trace st').

(** The outcome recorded in the entry [e] is the answer the disk [files]
    and the libraries of [env] give after the history [h]. *)
Definition answers (env : Env) (files : gmap string string) (h : list Event)
    (e : Event) : Prop :=
  match e with
  | EvExists path found => found = file_exists files path
  | EvServiceAccountLoad path scopes r =>
      r = from_service_account_file env h (files !! path) scopes
  | EvTokenLoad path scopes r =>
      r = from_authorized_user_file env h (files !! path) scopes
  | EvRefresh c r => r = refresh env h c
  | EvClientSecretsLoad path scopes r =>
      r = from_client_secrets_file env h (files !! path) scopes
  | EvRunLocalServer f r => r = run_local_server env h f
  | EvOpenWrite path r => r = open_w env h path
  | _ => True
  end.

(** The call [e] was made during the run that added the entries [new] to
    the log [old], with the files [files] on disk, and [e] records the
    answer the call got. *)
Fixpoint asked (env : Env) (files : gmap string string) (old new : list Event)
    (e : Event) : Prop :=
  match new with
  | [] => False
  | x :: earlier =>
      (x = e /\ answers env files (earlier ++ old) e)
      \/ asked env files old earlier e
  end.

(** Every cached service object was built earlier: its identity is below
    the counter. *)
Definition cache_wf (st : State) : Prop :=
  map_Forall (fun _ service => (svc_id service < next_id st)%nat) (_services st).

(** What a caller may do between two requests without clearing the cache. *)
Inductive Op :=
  | OpGetService (api_name api_version : string) (scopes : option (list string))
  | OpValidate.

Definition run_op (settings : Settings) (env : Env) (op : Op) (st : State) : State :=
  match op with
  | OpGetService api_name api_version scopes =>
      (get_service settings env api_name api_version scopes st).2
  | OpValidate => (validate_credentials settings env st).2
  end.

Definition run_ops (settings : Settings) (env : Env) (ops : list Op) (st : State) : State :=
  foldl (fun st op => run_op settings env op st) st ops.

(** ** The errors the module raises *)

(** The error [_get_credentials] raises for a cause [e]. *)
Definition authentication_error (e : PyExc) : PyExc :=
  {| exc_class := GoogleAuthError;
     exc_msg := "Failed to authenticate with Google: " +:+ exc_msg e |}.

(** ** The outcome of a cache miss *)

(** The error [get_service] raises for a cause [e]. *)
Definition service_error (api_name : string) (e : PyExc) : PyExc :=
  {| exc_class := GoogleAuthError;
     exc_msg := "Failed to create " +:+ api_name +:+ " service: " +:+ exc_msg e |}.

Definition service_error_log (api_name : string) (e : PyExc) : Event :=
  EvLog ERROR ("Error in " +:+ ("Google service creation for " +:+ api_name)
               +:+ ": " +:+ exc_msg e).

(** What a cache miss does once credential resolution has returned
    [rc] in state [st1]. *)
Definition after_credentials (env : Env) (api_name api_version key : string)
    (rc : Res Credentials) (st1 : State) : Res Service * State :=
  match rc with
  | Raise e =>
      (Raise (service_error api_name e),
       with_trace (service_error_log api_name e :: trace st1) st1)
  | Ok creds =>
      let h := EvLog INFO ("API call to " +:+ "Google" +:+ ": " +:+ ("build_" +:+ api_name))
                 :: trace st1 in
      match build env h api_name api_version creds with
      | Ok _ =>
          let service := {| svc_id := next_id st1; svc_api := api_name;
                            svc_version := api_version; svc_creds := creds |} in
          (Ok service,
           {| _services := <[key := service]> (_services st1);
              fs := fs st1;
              trace := EvLog INFO ("Created new service for " +:+ api_name
                                   +:+ " v" +:+ api_version)
                         :: EvBuild api_name api_version creds (Ok service) :: h;
              next_id := S (next_id st1) |})
      | Raise e =>
          (Raise (service_error api_name e),
           with_trace (service_error_log api_name e
                         :: EvBuild api_name api_version creds (Raise e) :: h) st1)
      end
  end.

(** ** A concrete environment

    A scripted stand-in for the libraries, used to run the code on
    concrete inputs.  The content of a file decides what loading it gives. *)
Module Demo.

(** Python's hash of a tuple of strings as CPython 3.8 and later compute
    it on a 64-bit build (the xxHash-style loop of [tuplehash]), over a
    string hash [str_hash]. *)
Definition XXPRIME_1 : Z := 11400714785074694791.
Definition XXPRIME_2 : Z := 14029467366897019727.
Definition XXPRIME_5 : Z := 2870177450012600261.

Definition uhash (x : Z) : Z := x mod 2 ^ 64.

Definition xxrotate (x : Z) : Z :=
  uhash (Z.lor (Z.shiftl x 31) (Z.shiftr x 33)).

Fixpoint tuplehash_loop (str_hash : string -> Z) (acc : Z) (items : list string) : Z :=
  match items with
  | [] => acc
  | item :: rest =>
      let lane := uhash (str_hash item) in
      let acc := uhash (acc + lane * XXPRIME_2) in
      let acc := xxrotate acc in
      let acc := uhash (acc * XXPRIME_1) in
      tuplehash_loop str_hash acc rest
  end.

Definition tuplehash (str_hash : string -> Z) (items : list string) : Z :=
  let acc := tuplehash_loop str_hash XXPRIME_5 items in
  let acc := uhash (acc + Z.lxor (Z.of_nat (length items))
                                 (Z.lxor XXPRIME_5 3527539)) in
  if Z.eqb acc (2 ^ 64 - 1) then 1546275796
  else if Z.ltb acc (2 ^ 63) then acc else acc - 2 ^ 64.

(** The string hash of the process: the multiplicative hash of older
    CPython versions stands in for the keyed one. *)
Fixpoint str_hash_loop (x : Z) (s : string) : Z :=
  match s with
  | EmptyString => x
  | String c rest =>
      str_hash_loop (uhash (Z.lxor (1000003 * x) (Z.of_N (Ascii.N_of_ascii c)))) rest
  end.

Definition str_hash (s : string) : Z :=
  match s with
  | EmptyString => 0
  | String c _ =>
      Z.lxor (str_hash_loop (Z.shiftl (Z.of_N (Ascii.N_of_ascii c)) 7) s)
             (Z.of_nat (String.length s))
  end.

Definition value_error (msg : string) : PyExc :=
  {| exc_class := LibraryError "ValueError"; exc_msg := msg |}.

Definition refresh_error : PyExc :=
  {| exc_class := LibraryError "RefreshError";
     exc_msg := "invalid_grant: Token has been expired or revoked." |}.

Definition service_account_creds (scopes : list string) : Credentials :=
  {| cred_scopes := scopes; valid := true; expired := false;
     refresh_token := None; to_json := "service-account" |}.

Definition valid_creds (scopes : list string) : Credentials :=
  {| cred_scopes := scopes; valid := true; expired := false;
     refresh_token := Some "1//refresh"; to_json := "token=live refresh_token=1//refresh" |}.

Definition expired_creds (scopes : list string) : Credentials :=
  {| cred_scopes := scopes; valid := false; expired := true;
     refresh_token := Some "1//refresh"; to_json := "token=old refresh_token=1//refresh" |}.

Definition revoked_creds (scopes : list string) : Credentials :=
  {| cred_scopes := scopes; valid := false; expired := true;
     refresh_token := Some "1//revoked"; to_json := "token=old refresh_token=1//revoked" |}.

Definition consented_creds (scopes : list string) : Credentials :=
  {| cred_scopes := scopes; valid := true; expired := false;
     refresh_token := Some "1//new"; to_json := "token=new refresh_token=1//new" |}.

Definition load_user_file (content : option string) (scopes : list string) : Res Credentials :=
  match content with
  | Some s =>
      if String.eqb s "valid" then Ok (valid_creds scopes)
      else if String.eqb s "expired" then Ok (expired_creds scopes)
      else if String.eqb s "revoked" then Ok (revoked_creds scopes)
      else Raise (value_error "Expecting value: line 1 column 1 (char 0)")
  | None => Raise (value_error "No such file or directory")
  end.

Definition env : Env := {|
  hash_tuple := tuplehash str_hash;
  from_service_account_file := fun _ content scopes =>
    match content with
    | Some _ => Ok (service_account_creds scopes)
    | None => Raise (value_error "No such file or directory")
    end;
  from_authorized_user_file := fun _ => load_user_file;
  refresh := fun _ c =>
    if bool_decide (refresh_token c = Some "1//revoked") then Raise refresh_error
    else Ok (valid_creds (cred_scopes c));
  from_client_secrets_file := fun _ content scopes =>
    match content with
    | Some s => Ok {| flow_client_config := s; flow_scopes := scopes |}
    | None => Raise (value_error "No such file or directory")
    end;
  run_local_server := fun _ flow => Ok (consented_creds (flow_scopes flow));
  open_w := fun _ _ => Ok tt;
  build := fun _ _ _ _ => Ok tt;
  getProfile_execute := fun _ _ _ => Ok {[ "emailAddress" := "user@example.com" ]}
|}.

(** A fresh process: empty cache, empty log, the given files on disk. *)
Definition start (files : gmap string string) : State :=
  {| _services := ∅; fs := files; trace := []; next_id := 0 |}.

Definition with_token (content : string) : gmap string string :=
  <["token.json" := content]> (<["credentials.json" := "client-secrets"]> ∅).

Definition no_files : gmap string string := ∅.

Definition gmail_service (id : nat) (creds : Credentials) : Service :=
  {| svc_id := id; svc_api := "gmail"; svc_version := "v1"; svc_creds := creds |}.

(** The state after a first [get_service('gmail', 'v1')] with a valid
    token on disk. *)
Definition after_first_call : State :=
  (get_service default_settings env "gmail" "v1" None (start (with_token "valid"))).2.

(** The default Gmail scopes. *)
Definition gmail : list string := gmail_scopes default_settings.

(** Two of the Gmail scopes, in both orders. *)
Definition scopes_ab : list string :=
  [ "https://www.googleapis.com/auth/gmail.readonly";
    "https://www.googleapis.com/auth/gmail.send" ].

Definition scopes_ba : list string :=
  [ "https://www.googleapis.com/auth/gmail.send";
    "https://www.googleapis.com/auth/gmail.readonly" ].

(** The state after a first call with the explicit scopes [scopes_ab]. *)
Definition after_scopes_ab : State :=
  (get_service default_settings env "gmail" "v1" (Some scopes_ab)
     (start (with_token "valid"))).2.

End Demo.

(** ** config.py: [validate_config]

    [validate_config] reads two more fields of the settings object. *)
Record AppSettings := {
  auth_settings : Settings;
  use_vertex_ai : bool;
  google_api_key : option string
}.

(** [validate_config]: the value returned, paired with the line printed. *)
Definition validate_config (app : AppSettings) : M (bool * string) :=
  if negb (use_vertex_ai app) && negb (truthy (google_api_key app)) then
    ret (false, "❌ Error: GOOGLE_API_KEY is required when not using Vertex AI")
  else
    found <- os_path_exists (google_credentials_path (auth_settings app)) ;;
    if negb found then
      ret (false, "❌ Error: Google credentials file not found at "
                  +:+ google_credentials_path (auth_settings app))
    else
      ret (true, "✅ Configuration validated successfully").

(** ** Whole sessions on the service manager *)

(** Everything a caller can do with the module, the clearing calls
    included. *)
Inductive Action :=
  | ActGetService (api_name api_version : string) (scopes : option (list string))
  | ActValidate
  | ActClearCache
  | ActRefresh.

Definition run_action (settings : Settings) (env : Env) (a : Action) (st : State) : State :=
  match a with
  | ActGetService api_name api_version scopes =>
      (get_google_service settings env api_name api_version scopes st).2
  | ActValidate => (validate_credentials settings env st).2
  | ActClearCache => (clear_cache st).2
  | ActRefresh => (refresh_credentials settings env st).2
  end.

Definition run_actions (settings : Settings) (env : Env) (l : list Action) (st : State) : State :=
  foldl (fun st a => run_action settings env a st) st l.

(** No service object is cached under two keys. *)
Definition cache_distinct (st : State) : Prop :=
  forall k1 k2 s1 s2,
    _services st !! k1 = Some s1 -> _services st !! k2 = Some s2 ->
    svc_id s1 = svc_id s2 -> k1 = k2.

Definition is_log (e : Event) : bool :=
  match e with EvLog _ _ => true | _ => false end.

(** ** simple_google_auth.py

    The module the tool functions import: the same steps as
    [GoogleServiceManager.get_service], with no cache, no logging and the
    two file names fixed. *)
Module Simple.

(** Lines 21-36: the default scopes. *)
Definition default_scopes (api_name : string) : list string :=
  if String.eqb api_name "gmail" then
    [ "https://www.googleapis.com/auth/gmail.readonly";
      "https://www.googleapis.com/auth/gmail.modify";
      "https://www.googleapis.com/auth/gmail.send" ]
  else if String.eqb api_name "calendar" then
    [ "https://www.googleapis.com/auth/calendar" ]
  else if String.eqb api_name "drive" then
    [ "https://www.googleapis.com/auth/drive.readonly";
      "https://www.googleapis.com/auth/drive.file" ]
  else [ "https://www.googleapis.com/auth/cloud-platform" ].

Definition token_path : string := "token.json".
Definition credentials_path : string := "credentials.json".

(** [raise Exception(msg)]. *)
Definition exception (msg : string) : PyExc :=
  {| exc_class := LibraryError "Exception"; exc_msg := msg |}.

(** Lines 38-71: the credentials.  [service_account_json] is
    [os.environ.get('GOOGLE_SERVICE_ACCOUNT_JSON')]. *)
Definition credentials (service_account_json : option string) (env : Env)
    (scopes : list string) : M Credentials :=
  let service_account_path := default "" service_account_json in
  use_service_account <-
    (if truthy service_account_json
     then os_path_exists service_account_path else ret false) ;;
  if use_service_account then
    read_call (fun h content => from_service_account_file env h content scopes)
      service_account_path (EvServiceAccountLoad service_account_path scopes)
  else
    token_found <- os_path_exists token_path ;;
    creds <-
      (if token_found then
         c <- read_call (fun h content => from_authorized_user_file env h content scopes)
                token_path (EvTokenLoad token_path scopes) ;;
         ret (Some c)
       else ret None) ;;
    let new_credentials : M Credentials :=
      found <- os_path_exists credentials_path ;;
      if found then
        flow <- read_call (fun h content => from_client_secrets_file env h content scopes)
                  credentials_path (EvClientSecretsLoad credentials_path scopes) ;;
        call (fun h => run_local_server env h flow) (EvRunLocalServer flow)
      else
        raise (exception ("Credentials file not found: " +:+ credentials_path)) in
    match creds with
    | Some c =>
        if valid c then ret c
        else if expired c && truthy (refresh_token c) then
          creds <- call (fun h => refresh env h c) (EvRefresh c) ;;
          write_text env token_path (to_json creds) ;;
          ret creds
        else
          creds <- new_credentials ;;
          write_text env token_path (to_json creds) ;;
          ret creds
    | None =>
        creds <- new_credentials ;;
        write_text env token_path (to_json creds) ;;
        ret creds
    end.

(** [simple_google_auth.get_google_service]. *)
Definition get_google_service (service_account_json : option string) (env : Env)
    (api_name api_version : string) (scopes : option (list string)) : M Service :=
  try_except
    (let scopes := match scopes with
                   | None => default_scopes api_name
                   | Some l => l
                   end in
     creds <- credentials service_account_json env scopes ;;
     discovery_build env api_name api_version creds)
    (fun e =>
       raise (exception ("Failed to create " +:+ api_name +:+ " service: "
                         +:+ exc_msg e))).

(** The wrappers of the tool modules. *)
Definition _get_gmail_service (service_account_json : option string) (env : Env)
    : M Service :=
  get_google_service service_account_json env "gmail" "v1" None.

Definition _get_calendar_service (service_account_json : option string) (env : Env)
    : M Service :=
  get_google_service service_account_json env "calendar" "v3" None.

Definition _get_drive_service (service_account_json : option string) (env : Env)
    : M Service :=
  get_google_service service_account_json env "drive" "v3" None.

End Simple.

(** ** Environments that fail

    Variants of [Demo.env] for the runs in which a later stage fails. *)
Module Faulty.

Definition http_error : PyExc :=
  {| exc_class := LibraryError "HttpError";
     exc_msg := "<HttpError 401 when requesting users/me/profile>" |}.

Definition permission_error : PyExc :=
  {| exc_class := LibraryError "PermissionError";
     exc_msg := "[Errno 13] Permission denied: 'token.json'" |}.

(** A token that is neither valid nor refreshable: it has expired and
    carries no refresh token. *)
Definition stale_creds (scopes : list string) : Credentials :=
  {| cred_scopes := scopes; valid := false; expired := true;
     refresh_token := None; to_json := "token=old" |}.

Definition load_user_file (content : option string) (scopes : list string)
    : Res Credentials :=
  match content with
  | Some s =>
      if String.eqb s "stale" then Ok (stale_creds scopes)
      else Demo.load_user_file content scopes
  | None => Demo.load_user_file content scopes
  end.

(** [Demo.env], reading the stale token too. *)
Definition env_stale : Env := {|
  hash_tuple := hash_tuple Demo.env;
  from_service_account_file := from_service_account_file Demo.env;
  from_authorized_user_file := fun _ => load_user_file;
  refresh := refresh Demo.env;
  from_client_secrets_file := from_client_secrets_file Demo.env;
  run_local_server := run_local_server Demo.env;
  open_w := open_w Demo.env;
  build := build Demo.env;
  getProfile_execute := getProfile_execute Demo.env
|}.

(** [Demo.env] with a token file that cannot be opened for writing and
    an API backend that rejects the identity check. *)
Definition env : Env := {|
  hash_tuple := hash_tuple Demo.env;
  from_service_account_file := from_service_account_file Demo.env;
  from_authorized_user_file := from_authorized_user_file Demo.env;
  refresh := refresh Demo.env;
  from_client_secrets_file := from_client_secrets_file Demo.env;
  run_local_server := run_local_server Demo.env;
  open_w := fun _ _ => Raise permission_error;
  build := build Demo.env;
  getProfile_execute := fun _ _ _ => Raise http_error
|}.

End Faulty.

(** A whole session on the manager. *)
Definition demo_session : list Action :=
  [ ActGetService "gmail" "v1" None; ActValidate; ActClearCache;
    ActGetService "drive" "v3" None; ActRefresh ].

(** * Proofs *)

(** ** Running the monad backwards

    A run of a composite program is cut into that of its parts. *)
Section Runs.

Context {A B : Type}.

Lemma bind_run (m : M A) (k : A -> M B) st r st' :
  bind m k st = (r, st') ->
  (exists a st1, m st = (Ok a, st1) /\ k a st1 = (r, st'))
  \/ (exists e, m st = (Raise e, st') /\ r = Raise e).
Proof.
  unfold bind. destruct (m st) as [[a|e] st1]; intros H.
  - left. eauto.
  - right. inversion H; subst. eauto.
Qed.

Lemma try_except_run (body : M A) (handler : PyExc -> M A) st r st' :
  try_except body handler st = (r, st') ->
  (exists a, body st = (Ok a, st') /\ r = Ok a)
  \/ (exists e st1, body st = (Raise e, st1) /\ handler e st1 = (r, st')).
Proof.
  unfold try_except. destruct (body st) as [[a|e] st1]; intros H.
  - left. inversion H; subst. eauto.
  - right. eauto.
Qed.

Lemma ret_run (a : A) st r st' : ret a st = (r, st') -> r = Ok a /\ st' = st.
Proof. unfold ret. intros H. by inversion H. Qed.

Lemma raise_run (e : PyExc) st (r : Res A) st' :
  raise e st = (r, st') -> r = Raise e /\ st' = st.
Proof. unfold raise. intros H. by inversion H. Qed.

Lemma call_run (outcome : list Event -> Res A) ev st r st' :
  call outcome ev st = (r, st') ->
  outcome (trace st) = r /\ st' = with_trace (ev r :: trace st) st.
Proof. unfold call. intros H. by inversion H. Qed.

Lemma read_call_run (outcome : list Event -> option string -> Res A) path ev st r st' :
  read_call outcome path ev st = (r, st') ->
  outcome (trace st) (fs st !! path) = r /\ st' = with_trace (ev r :: trace st) st.
Proof. unfold read_call. intros H. by inversion H. Qed.

End Runs.

Lemma emit_run e st r st' :
  emit e st = (r, st') -> r = Ok tt /\ st' = with_trace (e :: trace st) st.
Proof. unfold emit. intros H. by inversion H. Qed.

Lemma os_path_exists_run path st r st' :
  os_path_exists path st = (r, st') ->
  exists b, file_exists (fs st) path = b /\ r = Ok b
            /\ st' = with_trace (EvExists path b :: trace st) st.
Proof. unfold os_path_exists. intros H. inversion H. by eexists. Qed.

Lemma new_events_app st st' new :
  trace st' = new ++ trace st -> new_events st st' = new.
Proof.
  intros H. unfold new_events. rewrite H, length_app.
  replace (length new + length (trace st) - length (trace st))%nat
    with (length new) by lia.
  by rewrite take_app_length.
Qed.

(** ** Tactics *)

Ltac use_eq E := first [ discriminate E | injection E as E; subst | subst ].

(** Normalise a state built by the [with_] updates of a record. *)
Ltac state_simpl H :=
  cbv beta iota delta
    [trace fs _services next_id with_trace with_fs with_services with_next_id] in H.

(** Message literals are large terms; name them while a run is cut up. *)
Ltac hide_strings H :=
  repeat match type of H with
  | context [String ?a ?s] => let x := fresh "msg" in set (x := String a s) in H
  end.

Ltac run_prim H :=
  let E := fresh "E" in
  let S := fresh "S" in
  lazymatch type of H with
  | emit _ _ = _ => apply emit_run in H as [E S]
  | ret _ _ = _ => apply ret_run in H as [E S]
  | raise _ _ = _ => apply raise_run in H as [E S]
  | call _ _ _ = _ => apply call_run in H as [E S]; state_simpl E
  | read_call _ _ _ _ = _ => apply read_call_run in H as [E S]; state_simpl E
  | os_path_exists _ _ = _ =>
      let F := fresh "F" in
      let found := fresh "found" in
      apply os_path_exists_run in H as (found & F & E & S); state_simpl F;
      destruct found
  end;
  state_simpl S; use_eq E.

(** Follow a run [H : m st = (r, st')] along every branch of [m], first
    the computation to the left of a bind, then its continuation. *)
Ltac run_hyp H :=
  lazymatch type of H with
  | bind _ _ _ = _ =>
      let E := fresh "E" in let H1 := fresh "H" in
      apply bind_run in H as [(? & ? & H1 & H) | (? & H & E)];
      [ run_hyp H1; cbn beta in H; run_hyp H | use_eq E; run_hyp H ]
  | try_except _ _ _ = _ =>
      let E := fresh "E" in let H1 := fresh "H" in
      apply try_except_run in H as [(? & H & E) | (? & ? & H1 & H)];
      [ use_eq E; run_hyp H | run_hyp H1; cbn beta in H; run_hyp H ]
  | logger_debug _ _ = _ => unfold logger_debug in H; run_hyp H
  | logger_info _ _ = _ => unfold logger_info in H; run_hyp H
  | logger_warning _ _ = _ => unfold logger_warning in H; run_hyp H
  | logger_error _ _ = _ => unfold logger_error in H; run_hyp H
  | log_error _ _ _ = _ => unfold log_error in H; run_hyp H
  | log_api_call _ _ _ = _ => unfold log_api_call in H; run_hyp H
  | write_text _ _ _ _ = _ => unfold write_text in H; run_hyp H
  | load_token _ _ _ _ = _ =>
      unfold load_token in H; cbv zeta in H; hide_strings H; run_hyp H
  | oauth_flow _ _ _ _ = _ =>
      unfold oauth_flow in H; cbv zeta in H; hide_strings H; run_hyp H
  | save_credentials _ _ _ _ = _ =>
      unfold save_credentials in H; hide_strings H; run_hyp H
  | (if true then _ else _) _ = _ => cbv iota in H; run_hyp H
  | (if false then _ else _) _ = _ => cbv iota in H; run_hyp H
  | (if negb true then _ else _) _ = _ => cbn [negb] in H; cbv iota in H; run_hyp H
  | (if negb false then _ else _) _ = _ => cbn [negb] in H; cbv iota in H; run_hyp H
  | (if ?b then _ else _) _ = _ => destruct b eqn:?; run_hyp H
  | (match ?x with Some _ => _ | None => _ end) _ = _ => destruct x eqn:?; run_hyp H
  | (fun _ => _) _ = (_, _) => cbn beta in H; run_hyp H
  | (_, _) = (_, _) => state_simpl H; injection H as ? ?; subst
  | _ = (_, _) => run_prim H
  end.

(** Start on a run of [_get_credentials]. *)
Ltac run_credentials H st :=
  unfold _get_credentials in H; destruct st as [sv files t n];
  cbv zeta in H; hide_strings H; run_hyp H.

Ltac prefix_of l t :=
  lazymatch l with
  | t => constr:(@nil Event)
  | ?e :: ?l' => let p := prefix_of l' t in constr:(e :: p)
  end.

(** Compute [new_events] between two explicit states. *)
Ltac new_events_simpl :=
  repeat match goal with
  | |- context [new_events ?st ?st'] =>
      let l := eval cbv beta iota delta [trace] in (trace st') in
      let t := eval cbv beta iota delta [trace] in (trace st) in
      let p := prefix_of l t in
      rewrite (new_events_app st st' p eq_refl)
  | H : context [new_events ?st ?st'] |- _ =>
      let l := eval cbv beta iota delta [trace] in (trace st') in
      let t := eval cbv beta iota delta [trace] in (trace st) in
      let p := prefix_of l t in
      rewrite (new_events_app st st' p eq_refl) in H
  end.

(** Which entry of an explicit list is [H : e ∈ l] about? *)
Ltac elem_inv H :=
  repeat (apply elem_of_cons in H as [H|H]; [ try discriminate H | ]);
  try (apply elem_of_nil in H; destruct H).

Lemma existsb_false_elem {A} (f : A -> bool) (l : list A) (x : A) :
  existsb f l = false -> x ∈ l -> f x = false.
Proof.
  intros H Hin. destruct (f x) eqn:Hx; [|done].
  rewrite <- H. symmetry. apply existsb_exists. exists x.
  split; [by apply list_elem_of_In|done].
Qed.

(** Membership in an explicit list. *)
Ltac elem_solve :=
  solve [ repeat first [ apply list_elem_of_here | apply list_elem_of_further ] ].

Ltac no_units :=
  repeat match goal with u : unit |- _ => destruct u end.

(** ** Calls and their answers in the log *)

Lemma asked_here env files old earlier e :
  answers env files (earlier ++ old) e -> asked env files old (e :: earlier) e.
Proof. intros H. left. by split. Qed.

Lemma asked_further env files old x earlier e :
  asked env files old earlier e -> asked env files old (x :: earlier) e.
Proof. intros H. by right. Qed.

Lemma asked_elem env files old new e : asked env files old new e -> e ∈ new.
Proof.
  induction new as [|x new IH]; [done|].
  intros [[-> _]|H]; [apply list_elem_of_here|apply list_elem_of_further, IH, H].
Qed.

(** Find the entry in an explicit log and check its answer against the
    run. *)
Ltac asked_solve :=
  solve [ repeat first
    [ apply asked_here; cbn [answers app];
      first [ reflexivity | symmetry; eassumption ]
    | apply asked_further ] ].

(** Replace the file tests the run has decided by their answers. *)
Ltac rewrite_found :=
  repeat match goal with
  | F : file_exists ?f ?p = _ |- context [file_exists ?f ?p] => rewrite F
  end.

(** Decide the tests of a statement with the facts of the run. *)
Ltac rewrite_tests :=
  repeat match goal with
  | Hb : ?b = _ |- context [if ?b then _ else _] => rewrite Hb
  end.

(** [forall x, a = b -> ...] where [a = b] decides everything. *)
Ltac by_outcome := intros ? ?; simplify_eq; reflexivity.

Ltac consent_solve :=
  split; [reflexivity|];
  split; [asked_solve|];
  split; (intros ?;
    first [ discriminate
          | repeat split; reflexivity
          | eexists; split; [asked_solve|]; cbv iota;
            first [ split; reflexivity
                  | eexists; split; [asked_solve|]; split; by_outcome ] ]).

(** ** Credential resolution: what every run satisfies *)

Section Resolution.

Variable settings : Settings.
Variable env : Env.

(** Credential resolution touches neither the cache nor the object
    counter, and only adds to the log. *)
Lemma get_credentials_frame scopes st r st' :
  _get_credentials settings env scopes st = (r, st') ->
  _services st' = _services st /\ next_id st' = next_id st
  /\ trace st' = new_events st st' ++ trace st.
Proof.
  intros H. run_credentials H st.
  all: new_events_simpl; done.
Qed.

(** Whatever fails inside credential resolution leaves it as a
    [GoogleAuthError]. *)
Lemma get_credentials_raise scopes st e st' :
  _get_credentials settings env scopes st = (Raise e, st') ->
  exc_class e = GoogleAuthError.
Proof.
  intros H. run_credentials H st.
  all: done.
Qed.

(** Credential resolution always looks at the disk, and never builds or
    calls a service. *)
Lemma get_credentials_storage scopes st r st' :
  _get_credentials settings env scopes st = (r, st') ->
  existsb is_storage (new_events st st') = true
  /\ existsb is_service_call (new_events st st') = false.
Proof.
  intros H. run_credentials H st.
  all: new_events_simpl.
  all: split; [|reflexivity].
  all: cbn [existsb is_storage orb]; rewrite ?orb_true_r; reflexivity.
Qed.

Lemma get_credentials_refresh_failure scopes st r st' c e :
  _get_credentials settings env scopes st = (r, st') ->
  EvRefresh c (Raise e) ∈ new_events st st' ->
  r = Raise {| exc_class := GoogleAuthError;
               exc_msg := "Failed to authenticate with Google: " +:+ exc_msg e |}
  /\ existsb is_interactive (new_events st st') = false
  /\ existsb is_token_write (new_events st st') = false
  /\ fs st' = fs st.
Proof.
  intros H Hin. run_credentials H st.
  all: new_events_simpl.
  all: elem_inv Hin.
  all: simplify_eq.
  all: done.
Qed.

Lemma get_credentials_fresh_token scopes st r st' c' :
  _get_credentials settings env scopes st = (r, st') ->
  (exists c, EvRefresh c (Ok c') ∈ new_events st st')
  \/ (exists f, EvRunLocalServer f (Ok c') ∈ new_events st st') ->
  forall creds, r = Ok creds ->
    creds = c'
    /\ fs st' !! google_token_path settings = Some (to_json c')
    /\ EvWrite (google_token_path settings) (to_json c') ∈ new_events st st'.
Proof.
  intros H Hin creds ->. run_credentials H st.
  all: new_events_simpl.
  all: destruct Hin as [[c0 Hin]|[f0 Hin]].
  all: elem_inv Hin.
  all: simplify_eq.
  all: cbn [fs]; rewrite lookup_insert_eq.
  all: split; [reflexivity|]; split; [reflexivity|]; elem_solve.
Qed.

Lemma get_credentials_unreadable_token scopes st r st' e :
  _get_credentials settings env scopes st = (r, st') ->
  EvTokenLoad (google_token_path settings) scopes (Raise e) ∈ new_events st st' ->
  EvLog WARNING ("Failed to load existing credentials: " +:+ exc_msg e)
    ∈ new_events st st'
  /\ existsb is_refresh (new_events st st') = false
  /\ EvLog INFO "Creating new credentials via OAuth flow" ∈ new_events st st'
  /\ (forall creds,
        r = Ok creds <->
        (exists f, EvRunLocalServer f (Ok creds) ∈ new_events st st')
        /\ EvOpenWrite (google_token_path settings) (Ok tt) ∈ new_events st st').
Proof.
  intros H Hin. run_credentials H st.
  all: new_events_simpl.
  all: elem_inv Hin.
  all: simplify_eq.
  all: no_units.
  all: split; [elem_solve|]; split; [reflexivity|]; split; [elem_solve|].
  all: intros creds; split;
    [ intros Hr; first [ discriminate Hr | simplify_eq; split; [eexists|]; elem_solve ]
    | intros [[f0 Hf] Ho]; elem_inv Hf; elem_inv Ho; by simplify_eq ].
Qed.

(** C4, as amended: credential resolution is ordered and the first match
    wins.  Every call named below is in the log of the run with the
    answer the disk or the library gave at that point ([asked]).

    With a service-account path configured and its file present, the key
    file is loaded and decides the result, and no token is loaded,
    refreshed or written and no consent flow is started.

    Otherwise no key file is loaded and the token file is looked for.  If
    it exists it is loaded; a token that loads and is valid is returned as
    it is; one that is not valid, is expired and carries a refresh token
    is refreshed exactly once, the refresh decides the result, and the
    consent flow is not entered.

    In every other case (no token file, a token that does not load, a
    token neither valid nor refreshable) the consent-flow branch is
    entered and nothing is refreshed.  The branch first looks for the
    client-secrets file: when the file is missing the run raises a
    [GoogleAuthError], Credentials file not found, and no consent flow
    runs and no token is written; when it is present the client secrets
    are loaded and, if they load, the interactive flow runs and decides
    the result. *)
Theorem credential_resolution_order scopes st r st' :
  _get_credentials settings env scopes st = (r, st') ->
  let new := new_events st st' in
  let made := asked env (fs st) (trace st) new in
  let sa := google_service_account_path settings in
  let token_path := google_token_path settings in
  let credentials_path := google_credentials_path settings in
  let consent_branch :=
    existsb is_refresh new = false
    /\ made (EvExists credentials_path (file_exists (fs st) credentials_path))
    /\ (file_exists (fs st) credentials_path = false ->
          r = Raise (authentication_error
                       {| exc_class := GoogleAuthError;
                          exc_msg := "Credentials file not found: "
                                     +:+ credentials_path |})
          /\ existsb is_interactive new = false
          /\ existsb is_token_write new = false)
    /\ (file_exists (fs st) credentials_path = true ->
          exists secrets,
            made (EvClientSecretsLoad credentials_path scopes secrets)
            /\ match secrets with
               | Ok flow =>
                   exists consent,
                     made (EvRunLocalServer flow consent)
                     /\ (forall e, consent = Raise e ->
                           r = Raise (authentication_error e))
                     /\ (forall c, r = Ok c -> consent = Ok c)
               | Raise e =>
                   r = Raise (authentication_error e)
                   /\ List.filter is_interactive new
                      = [EvClientSecretsLoad credentials_path scopes (Raise e)]
               end) in
  (truthy sa = true -> file_exists (fs st) (default "" sa) = true ->
     (exists res, made (EvServiceAccountLoad (default "" sa) scopes res)
                  /\ forall c, r = Ok c <-> res = Ok c)
     /\ existsb is_token_load new = false
     /\ existsb is_refresh new = false
     /\ existsb is_interactive new = false
     /\ existsb is_token_write new = false)
  /\ (truthy sa = false \/ file_exists (fs st) (default "" sa) = false ->
     existsb is_service_account_load new = false
     /\ made (EvExists token_path (file_exists (fs st) token_path))
     /\ (file_exists (fs st) token_path = false ->
           existsb is_token_load new = false /\ consent_branch)
     /\ (file_exists (fs st) token_path = true ->
           exists token,
             made (EvTokenLoad token_path scopes token)
             /\ match token with
                | Ok c =>
                    if valid c then
                      r = Ok c
                      /\ existsb is_refresh new = false
                      /\ existsb is_interactive new = false
                      /\ existsb is_token_write new = false
                    else if expired c && truthy (refresh_token c) then
                      (exists res,
                          made (EvRefresh c res)
                          /\ List.filter is_refresh new = [EvRefresh c res]
                          /\ (forall e, res = Raise e ->
                                r = Raise (authentication_error e))
                          /\ (forall c', r = Ok c' -> res = Ok c'))
                      /\ existsb is_interactive new = false
                    else consent_branch
                | Raise _ => consent_branch
                end)).
Proof.
  intros H. cbv zeta. run_credentials H st.
  all: new_events_simpl; cbn [fs trace]; rewrite_found.
  all: split;
    [ intros Ht Hf;
      first [ congruence
            | split; [ eexists; split; [asked_solve | intros c0; split; congruence]
                     | repeat split ] ]
    | intros Hno; first [ exfalso; destruct Hno; congruence | idtac ] ].
  all: split; [reflexivity|].
  all: split; [asked_solve|].
  all: split; (intros Htok; first [ congruence | idtac ]).
  all: first [ split; [reflexivity|consent_solve]
             | eexists; split; [asked_solve|]; cbv iota; rewrite_tests;
               first [ consent_solve
                     | repeat split; reflexivity
                     | split; [|reflexivity];
                       eexists; split; [asked_solve|];
                       split; [reflexivity|]; split; by_outcome ] ].
Qed.

End Resolution.

(** ** One level of [get_service] *)

Section ServiceRuns.

Variable settings : Settings.
Variable env : Env.

Lemma get_service_unfold api_name api_version scopes st :
  get_service settings env api_name api_version scopes st =
  let sc := requested_scopes settings api_name scopes in
  let key := service_key env api_name api_version sc in
  match _services st !! key with
  | Some service =>
      (Ok service,
       with_trace (EvLog DEBUG ("Returning cached service for " +:+ api_name)
                     :: trace st) st)
  | None =>
      after_credentials env api_name api_version key
        (_get_credentials settings env sc st).1
        (_get_credentials settings env sc st).2
  end.
Proof.
  unfold get_service, try_except. cbv zeta.
  destruct (_services st !! _) as [service|] eqn:Hkey; [reflexivity|].
  unfold bind at 1.
  destruct (_get_credentials settings env _ st) as [[creds|e] st1]; [|reflexivity].
  unfold after_credentials, fst, snd.
  unfold bind at 1. unfold log_api_call, logger_info, emit.
  unfold bind at 1. unfold discovery_build.
  cbv beta iota delta [trace with_trace].
  destruct (build env _ api_name api_version creds) as [u|e]; reflexivity.
Qed.

Lemma new_events_trans st st1 st' l :
  trace st1 = new_events st st1 ++ trace st ->
  trace st' = l ++ trace st1 ->
  new_events st st' = l ++ new_events st st1.
Proof.
  intros H1 H2. apply new_events_app. rewrite H2, H1. by rewrite app_assoc.
Qed.

End ServiceRuns.

(** ** The service cache *)

Section Cache.

Variable settings : Settings.
Variable env : Env.

Lemma get_service_hit api_name api_version scopes st service :
  _services st !! service_key env api_name api_version
                    (requested_scopes settings api_name scopes) = Some service ->
  get_service settings env api_name api_version scopes st =
  (Ok service,
   with_trace (EvLog DEBUG ("Returning cached service for " +:+ api_name) :: trace st) st).
Proof. intros H. rewrite get_service_unfold. cbv zeta. by rewrite H. Qed.

(** A call that returns a service leaves it in the cache under its key. *)
Lemma get_service_caches api_name api_version scopes st service st' :
  get_service settings env api_name api_version scopes st = (Ok service, st') ->
  _services st' !! service_key env api_name api_version
                     (requested_scopes settings api_name scopes) = Some service.
Proof.
  rewrite get_service_unfold. cbv zeta.
  destruct (_services st !! _) as [cached|] eqn:Hkey.
  - intros [= -> <-]. exact Hkey.
  - unfold after_credentials.
    destruct (_get_credentials _ _ _ st) as [[creds|e] st1]; cbn [fst snd]; [|done].
    destruct (build _ _ _ _ _); [|done].
    intros [= <- <-]. cbn [_services]. apply lookup_insert_eq.
Qed.

(** No call replaces or drops an entry of the cache. *)
Lemma get_service_keeps api_name api_version scopes st r st' key service :
  get_service settings env api_name api_version scopes st = (r, st') ->
  _services st !! key = Some service ->
  _services st' !! key = Some service.
Proof.
  rewrite get_service_unfold. cbv zeta.
  destruct (_services st !! service_key _ _ _ _) as [cached|] eqn:Hkey.
  - intros [= _ <-]. done.
  - unfold after_credentials.
    destruct (_get_credentials _ _ _ st) as [[creds|e] st1] eqn:Hc; cbn [fst snd].
    all: apply get_credentials_frame in Hc as (Hs & _ & _).
    + destruct (build _ _ _ _ _); intros [= _ <-] Hk; cbn [_services with_trace].
      * rewrite lookup_insert_ne; [by rewrite Hs|]. intros Heq. rewrite Heq in Hkey. congruence.
      * by rewrite Hs.
    + intros [= _ <-] Hk. cbn [_services with_trace]. by rewrite Hs.
Qed.

Lemma validate_credentials_unfold st :
  validate_credentials settings env st =
  match get_service settings env "gmail" "v1" None st with
  | (Ok service, st1) =>
      match getProfile_execute env (trace st1) service "me" with
      | Ok profile =>
          (Ok true,
           with_trace
             (EvLog INFO ("Credentials validated for user: "
                          +:+ default "Unknown" (profile !! "emailAddress"))
                :: EvGetProfile service "me" (Ok profile) :: trace st1) st1)
      | Raise e =>
          (Ok false,
           with_trace
             (EvLog ERROR ("Error in " +:+ "Credential validation" +:+ ": " +:+ exc_msg e)
                :: EvGetProfile service "me" (Raise e) :: trace st1) st1)
      end
  | (Raise e, st1) =>
      (Ok false,
       with_trace
         (EvLog ERROR ("Error in " +:+ "Credential validation" +:+ ": " +:+ exc_msg e)
            :: trace st1) st1)
  end.
Proof.
  unfold validate_credentials, get_google_service, try_except.
  unfold bind at 1.
  destruct (get_service _ _ _ _ _ st) as [[service|e] st1]; [|reflexivity].
  unfold bind at 1, call. cbv beta zeta.
  destruct (getProfile_execute env (trace st1) service "me"); reflexivity.
Qed.

Lemma validate_credentials_keeps st key service :
  _services st !! key = Some service ->
  _services (validate_credentials settings env st).2 !! key = Some service.
Proof.
  intros Hk. rewrite validate_credentials_unfold.
  destruct (get_service _ _ _ _ _ st) as [[svc|e] st1] eqn:Hg;
    pose proof (get_service_keeps _ _ _ _ _ _ _ _ Hg Hk) as Hk1.
  - destruct (getProfile_execute _ _ _ _); exact Hk1.
  - exact Hk1.
Qed.

Lemma run_ops_keeps ops st key service :
  _services st !! key = Some service ->
  _services (run_ops settings env ops st) !! key = Some service.
Proof.
  revert st. induction ops as [|op ops IH]; intros st Hk; [exact Hk|].
  cbn [run_ops foldl]. apply IH. destruct op as [a v s|]; cbn [run_op].
  - destruct (get_service settings env a v s st) as [r st'] eqn:Hg.
    exact (get_service_keeps _ _ _ _ _ _ _ _ Hg Hk).
  - by apply validate_credentials_keeps.
Qed.

(** C5: after a call of [get_service] that returned [service], and any
    further [get_service] and [validate_credentials] calls but no
    [clear_cache], a call with the same arguments returns the same service
    object; all it does is log one debug line: no access to credential
    storage, no network call, the disk as it was. *)
Theorem cached_call_repeats api_name api_version scopes st service st1 ops :
  get_service settings env api_name api_version scopes st = (Ok service, st1) ->
  let st2 := run_ops settings env ops st1 in
  let st3 := (get_service settings env api_name api_version scopes st2).2 in
  get_service settings env api_name api_version scopes st2 =
    (Ok service,
     with_trace (EvLog DEBUG ("Returning cached service for " +:+ api_name)
                   :: trace st2) st2)
  /\ existsb is_io (new_events st2 st3) = false
  /\ fs st3 = fs st2.
Proof.
  intros H st2 st3.
  assert (get_service settings env api_name api_version scopes st2 =
    (Ok service,
     with_trace (EvLog DEBUG ("Returning cached service for " +:+ api_name)
                   :: trace st2) st2)) as Hhit.
  { apply get_service_hit, run_ops_keeps. by apply get_service_caches in H. }
  split; [exact Hhit|]. subst st3. rewrite Hhit. cbn [snd].
  split; [|reflexivity].
  by rewrite (new_events_app st2
                (with_trace (EvLog DEBUG ("Returning cached service for " +:+ api_name)
                               :: trace st2) st2)
                [EvLog DEBUG ("Returning cached service for " +:+ api_name)] eq_refl).
Qed.

(** C6: a failing [get_service] raises a [GoogleAuthError] that wraps its
    cause, and leaves the service cache exactly as it was. *)
Theorem failed_call_keeps_cache api_name api_version scopes st e st' :
  get_service settings env api_name api_version scopes st = (Raise e, st') ->
  exc_class e = GoogleAuthError
  /\ (exists cause, e = service_error api_name cause)
  /\ _services st' = _services st.
Proof.
  rewrite get_service_unfold. cbv zeta.
  destruct (_services st !! _) as [cached|]; [done|].
  unfold after_credentials.
  destruct (_get_credentials _ _ _ st) as [[creds|c] st1] eqn:Hc; cbn [fst snd].
  all: apply get_credentials_frame in Hc as (Hs & _ & _).
  - destruct (build _ _ _ _ _) as [u|c]; [done|].
    intros [= <- <-]. eauto.
  - intros [= <- <-]. eauto.
Qed.

Lemma service_key_hash api_name api_version s1 s2 :
  hash_tuple env s1 = hash_tuple env s2 ->
  service_key env api_name api_version s1 = service_key env api_name api_version s2.
Proof. unfold service_key. by intros ->. Qed.

(** C2, as amended: the cache key holds the scopes through
    [hash(tuple(scopes))], which depends on their order.  Two scope lists
    with the same tuple hash, as any list and itself, give the same key,
    and after a call with the first that returned [service] a call with
    the second returns that same object and only logs a debug line. *)
Theorem equal_hash_shares_entry api_name api_version s1 s2 st service st1 :
  hash_tuple env s1 = hash_tuple env s2 ->
  get_service settings env api_name api_version (Some s1) st = (Ok service, st1) ->
  service_key env api_name api_version s1 = service_key env api_name api_version s2
  /\ get_service settings env api_name api_version (Some s2) st1 =
       (Ok service,
        with_trace (EvLog DEBUG ("Returning cached service for " +:+ api_name)
                      :: trace st1) st1).
Proof.
  intros Hh H. pose proof (service_key_hash api_name api_version _ _ Hh) as Hk.
  split; [exact Hk|]. apply get_service_hit. cbn [requested_scopes].
  rewrite <- Hk. by apply get_service_caches in H.
Qed.


(** C9, as amended: [validate_credentials] raises nothing (no instance
    of [Exception], see [ExcClass]): it returns [True] or [False].

    With a Gmail service cached for the default scopes, no credential
    resolution is run: the cached object is used, the one call that leaves
    the process is [getProfile(userId='me')] on it, and the result is
    [True] exactly when that call succeeds, whatever the state of the
    credential files.

    With none cached, credential storage is read, and the result is [True]
    exactly when credential resolution, [build] and [getProfile] on the
    new service all succeed; a failure at any of the three gives
    [False]. *)
Theorem validate_credentials_bool st :
  let scopes := get_google_scopes settings "gmail" in
  let key := service_key env "gmail" "v1" scopes in
  let run := validate_credentials settings env st in
  let new := new_events st run.2 in
  (run.1 = Ok true \/ run.1 = Ok false)
  /\ (forall cached, _services st !! key = Some cached ->
        let answer :=
          getProfile_execute env
            (EvLog DEBUG "Returning cached service for gmail" :: trace st)
            cached "me" in
        (run.1 = Ok true <-> exists profile, answer = Ok profile)
        /\ List.filter is_io new = [EvGetProfile cached "me" answer]
        /\ fs run.2 = fs st)
  /\ (_services st !! key = None ->
        let resolution := _get_credentials settings env scopes st in
        let api_log := EvLog INFO "API call to Google: build_gmail" in
        existsb is_storage new = true
        /\ (run.1 = Ok true <->
            exists creds built profile,
              let service := {| svc_id := next_id st; svc_api := "gmail";
                                svc_version := "v1"; svc_creds := creds |} in
              resolution.1 = Ok creds
              /\ build env (api_log :: trace resolution.2) "gmail" "v1" creds
                 = Ok built
              /\ getProfile_execute env
                   (EvLog INFO "Created new service for gmail vv1"
                      :: EvBuild "gmail" "v1" creds (Ok service)
                      :: api_log :: trace resolution.2)
                   service "me"
                 = Ok profile)).
Proof.
  cbv zeta. rewrite validate_credentials_unfold.
  split; [|split].
  - destruct (get_service _ _ _ _ _ st) as [[service|e] st1]; [|by right].
    destruct (getProfile_execute _ _ _ _); [by left|by right].
  - intros cached Hk.
    rewrite (get_service_hit "gmail" "v1" None st cached Hk).
    cbn [trace with_trace].
    change ("Returning cached service for " +:+ "gmail")
      with "Returning cached service for gmail".
    destruct (getProfile_execute _ _ _ _) as [p|e] eqn:Hp; cbn [fst snd].
    + split; [split; [by eexists|done]|]. split; [|done].
      by erewrite new_events_app by (by instantiate (1 := [_; _; _])).
    + split; [split; [done|by intros [? ?]]|]. split; [|done].
      by erewrite new_events_app by (by instantiate (1 := [_; _; _])).
  - intros Hk. rewrite get_service_unfold. cbv zeta.
    cbn [requested_scopes]. rewrite Hk.
    destruct (_get_credentials _ _ _ st) as [[creds|e] st1] eqn:Hc; cbn [fst snd].
    all: pose proof (get_credentials_storage _ _ _ _ _ _ Hc) as [Hsto _].
    all: apply get_credentials_frame in Hc as (_ & Hn & Ht).
    all: unfold after_credentials.
    + rewrite Hn.
      assert ("API call to " +:+ "Google" +:+ ": " +:+ ("build_" +:+ "gmail")
              = "API call to Google: build_gmail") as -> by reflexivity.
      assert ("Created new service for " +:+ "gmail" +:+ " v" +:+ "v1"
              = "Created new service for gmail vv1") as -> by reflexivity.
      destruct (build _ _ _ _ _) as [u|e] eqn:Hb.
      * cbn [trace]. destruct (getProfile_execute _ _ _ _) as [p|e] eqn:Hp; cbn [fst snd].
        -- split.
           { erewrite new_events_trans; [|exact Ht|by instantiate (1 := [_; _; _; _; _])].
             rewrite existsb_app, Hsto. apply orb_true_r. }
           split; [intros _; by exists creds, u, p|done].
        -- split.
           { erewrite new_events_trans; [|exact Ht|by instantiate (1 := [_; _; _; _; _])].
             rewrite existsb_app, Hsto. apply orb_true_r. }
           split; [done|]. intros (c & b & p & [= <-] & _ & Hp'). congruence.
      * cbn [fst snd]. split.
        { erewrite new_events_trans; [|exact Ht|by instantiate (1 := [_; _; _; _])].
          rewrite existsb_app, Hsto. apply orb_true_r. }
        split; [done|]. intros (c & b & p & [= <-] & Hb' & _). congruence.
    + split.
      { erewrite new_events_trans; [|exact Ht|by instantiate (1 := [_; _])].
        rewrite existsb_app, Hsto. apply orb_true_r. }
      split; [done|]. by intros (c & b & p & [=] & _).
Qed.

End Cache.

(** ** Clearing the cache *)

Section Fresh.

Variable settings : Settings.
Variable env : Env.

Lemma clear_cache_unfold st :
  clear_cache st =
  (Ok tt, {| _services := ∅; fs := fs st;
             trace := EvLog INFO "Cleared service cache" :: trace st;
             next_id := next_id st |}).
Proof. reflexivity. Qed.


End Fresh.

(** ** Credential resolution seen from [get_service] *)

Section Lifted.

Variable settings : Settings.
Variable env : Env.

(** The four ways a call of [get_service] can go, with the log entries
    each adds on top of those of credential resolution. *)
Lemma get_service_cases api_name api_version scopes st r st' :
  get_service settings env api_name api_version scopes st = (r, st') ->
  let sc := requested_scopes settings api_name scopes in
  let key := service_key env api_name api_version sc in
  let api_log := EvLog INFO ("API call to " +:+ "Google" +:+ ": "
                             +:+ ("build_" +:+ api_name)) in
  (exists service,
      _services st !! key = Some service /\ r = Ok service
      /\ new_events st st'
         = [EvLog DEBUG ("Returning cached service for " +:+ api_name)]
      /\ fs st' = fs st /\ _services st' = _services st)
  \/ (exists e st1,
      _get_credentials settings env sc st = (Raise e, st1)
      /\ r = Raise (service_error api_name e)
      /\ new_events st st' = [service_error_log api_name e] ++ new_events st st1
      /\ fs st' = fs st1 /\ _services st' = _services st)
  \/ (exists creds st1 e,
      _get_credentials settings env sc st = (Ok creds, st1)
      /\ r = Raise (service_error api_name e)
      /\ new_events st st'
         = [service_error_log api_name e;
            EvBuild api_name api_version creds (Raise e); api_log]
           ++ new_events st st1
      /\ fs st' = fs st1 /\ _services st' = _services st)
  \/ (exists creds st1 service,
      _get_credentials settings env sc st = (Ok creds, st1)
      /\ r = Ok service /\ svc_creds service = creds
      /\ new_events st st'
         = [EvLog INFO ("Created new service for " +:+ api_name
                        +:+ " v" +:+ api_version);
            EvBuild api_name api_version creds (Ok service); api_log]
           ++ new_events st st1
      /\ fs st' = fs st1
      /\ _services st' = <[key := service]> (_services st)).
Proof.
  rewrite get_service_unfold. cbv zeta.
  destruct (_services st !! _) as [cached|] eqn:Hkey.
  - intros [= <- <-]. left. exists cached. repeat split; try done.
    by apply new_events_app.
  - destruct (_get_credentials _ _ _ st) as [[creds|e] st1] eqn:Hc; cbn [fst snd].
    all: pose proof (get_credentials_frame _ _ _ _ _ _ Hc) as (Hs & _ & Ht).
    all: unfold after_credentials.
    + destruct (build _ _ _ _ _) as [u|e]; intros [= <- <-]; right; right.
      * right. eexists _, _, _. repeat split; try done.
        -- by apply (new_events_trans _ st1 _ [_; _; _]).
        -- cbn [_services]. by rewrite Hs.
      * left. eexists _, _, _. repeat split; try done.
        by apply (new_events_trans _ st1 _ [_; _; _]).
    + intros [= <- <-]. right; left. eexists _, _. repeat split; try done.
      by apply (new_events_trans _ st1 _ [_]).
Qed.

(** C3, as amended: when refreshing the stored token fails, [get_service]
    raises a [GoogleAuthError] that wraps the refresh failure; the consent
    flow is not started, the token file is not written, and disk and cache
    stay as they were. *)
Theorem refresh_failure_surfaces api_name api_version scopes st r st' c e :
  get_service settings env api_name api_version scopes st = (r, st') ->
  EvRefresh c (Raise e) ∈ new_events st st' ->
  r = Raise (service_error api_name
               {| exc_class := GoogleAuthError;
                  exc_msg := "Failed to authenticate with Google: " +:+ exc_msg e |})
  /\ existsb is_interactive (new_events st st') = false
  /\ existsb is_token_write (new_events st st') = false
  /\ fs st' = fs st
  /\ _services st' = _services st.
Proof.
  intros H Hin. apply get_service_cases in H. cbv zeta in H.
  destruct H as [(service & _ & _ & Hn & _)
                |[(e1 & st1 & Hc & -> & Hn & Hfs & Hsv)
                |[(creds & st1 & e1 & Hc & _ & Hn & _)
                | (creds & st1 & service & Hc & _ & _ & Hn & _)]]];
    rewrite Hn in Hin |- *.
  - elem_inv Hin.
  - apply elem_of_app in Hin as [Hin|Hin]; [elem_inv Hin|].
    destruct (get_credentials_refresh_failure _ _ _ _ _ _ _ _ Hc Hin)
      as ([= ->] & Hi & Hw & Hf).
    rewrite !existsb_app, Hi, Hw, Hfs, Hf. done.
  - apply elem_of_app in Hin as [Hin|Hin]; [elem_inv Hin|].
    by destruct (get_credentials_refresh_failure _ _ _ _ _ _ _ _ Hc Hin) as [? _].
  - apply elem_of_app in Hin as [Hin|Hin]; [elem_inv Hin|].
    by destruct (get_credentials_refresh_failure _ _ _ _ _ _ _ _ Hc Hin) as [? _].
Qed.

(** C8: when a call of [get_service] that returns a service refreshed
    the token or completed the consent flow, giving credentials [c'], then
    on return the token file holds exactly [c'.to_json()], whatever it
    held before, the write is in the log of the call, and the service
    carries [c']. *)
Theorem fresh_token_is_saved api_name api_version scopes st service st' c' :
  get_service settings env api_name api_version scopes st = (Ok service, st') ->
  (exists c, EvRefresh c (Ok c') ∈ new_events st st')
  \/ (exists f, EvRunLocalServer f (Ok c') ∈ new_events st st') ->
  fs st' !! google_token_path settings = Some (to_json c')
  /\ EvWrite (google_token_path settings) (to_json c') ∈ new_events st st'
  /\ svc_creds service = c'.
Proof.
  intros H Hin. apply get_service_cases in H. cbv zeta in H.
  destruct H as [(cached & _ & _ & Hn & _)
                |[(e1 & st1 & _ & [=] & _)
                |[(creds & st1 & e1 & _ & [=] & _)
                | (creds & st1 & svc & Hc & [= <-] & Hcr & Hn & Hfs & _)]]];
    rewrite Hn in Hin |- *.
  - destruct Hin as [[c Hin]|[f Hin]]; elem_inv Hin.
  - assert ((exists c, EvRefresh c (Ok c') ∈ new_events st st1)
            \/ (exists f, EvRunLocalServer f (Ok c') ∈ new_events st st1)) as Hin1.
    { destruct Hin as [[c Hin]|[f Hin]];
        apply elem_of_app in Hin as [Hin|Hin]; try (by elem_inv Hin); eauto. }
    destruct (get_credentials_fresh_token _ _ _ _ _ _ _ Hc Hin1 creds eq_refl)
      as (-> & Hf & Hw).
    rewrite Hfs. repeat split; try done.
    apply elem_of_app. by right.
Qed.

(** C10: when loading the token file raises, the failure is logged as a
    warning and resolution goes on as with no token: nothing is refreshed,
    the consent-flow branch is entered, and [get_service] returns a
    service exactly when the consent flow, the opening of the token file
    and [build] then succeed. *)
Theorem unreadable_token_is_no_token api_name api_version scopes st r st' e :
  get_service settings env api_name api_version scopes st = (r, st') ->
  let sc := requested_scopes settings api_name scopes in
  let token_path := google_token_path settings in
  let new := new_events st st' in
  EvTokenLoad token_path sc (Raise e) ∈ new ->
  EvLog WARNING ("Failed to load existing credentials: " +:+ exc_msg e) ∈ new
  /\ existsb is_refresh new = false
  /\ EvLog INFO "Creating new credentials via OAuth flow" ∈ new
  /\ (forall service,
        r = Ok service <->
        (exists f, EvRunLocalServer f (Ok (svc_creds service)) ∈ new)
        /\ EvOpenWrite token_path (Ok tt) ∈ new
        /\ EvBuild api_name api_version (svc_creds service) (Ok service) ∈ new).
Proof.
  intros H. cbv zeta. intros Hin. apply get_service_cases in H. cbv zeta in H.
  destruct H as [(cached & _ & _ & Hn & _)
                |[(e1 & st1 & Hc & -> & Hn & _)
                |[(creds & st1 & e1 & Hc & -> & Hn & _)
                | (creds & st1 & svc & Hc & -> & Hcr & Hn & _)]]];
    rewrite Hn in Hin |- *.
  { elem_inv Hin. }
  all: apply elem_of_app in Hin as [Hin|Hin]; [by elem_inv Hin|].
  all: destruct (get_credentials_unreadable_token _ _ _ _ _ _ _ Hc Hin)
         as (Hw & Hr & Hl & Hok).
  all: destruct (get_credentials_storage _ _ _ _ _ _ Hc) as [_ Hnb].
  all: rewrite existsb_app, Hr.
  all: split; [apply elem_of_app; by right|].
  all: split; [reflexivity|].
  all: split; [apply elem_of_app; by right|].
  all: intros service; split.
  all: try discriminate.
  - (* credential resolution failed *)
    intros (_ & _ & Hb). apply elem_of_app in Hb as [Hb|Hb]; [by elem_inv Hb|].
    by apply (existsb_false_elem _ _ _ Hnb) in Hb.
  - (* build failed *)
    intros (_ & _ & Hb). apply elem_of_app in Hb as [Hb|Hb]; [by elem_inv Hb|].
    by apply (existsb_false_elem _ _ _ Hnb) in Hb.
  - (* a service was built *)
    intros [= <-]. rewrite Hcr.
    destruct (proj1 (Hok creds) eq_refl) as [[f Hf] Ho].
    split; [exists f; apply elem_of_app; by right|].
    split; [apply elem_of_app; by right|].
    apply elem_of_app. left. elem_solve.
  - intros (_ & _ & Hb). apply elem_of_app in Hb as [Hb|Hb].
    + elem_inv Hb. by simplify_eq.
    + by apply (existsb_false_elem _ _ _ Hnb) in Hb.
Qed.

End Lifted.

(** ** [cache_wf] is an invariant *)

Section Invariant.

Variable settings : Settings.
Variable env : Env.

Lemma cache_wf_start files : cache_wf (Demo.start files).
Proof. unfold cache_wf. cbn [_services Demo.start]. apply map_Forall_empty. Qed.

Lemma cache_wf_get_service api_name api_version scopes st r st' :
  get_service settings env api_name api_version scopes st = (r, st') ->
  cache_wf st -> cache_wf st'.
Proof.
  rewrite get_service_unfold. cbv zeta. unfold cache_wf.
  destruct (_services st !! _) as [cached|] eqn:Hkey.
  - intros [= _ <-]. done.
  - destruct (_get_credentials _ _ _ st) as [[creds|e] st1] eqn:Hc; cbn [fst snd].
    all: apply get_credentials_frame in Hc as (Hs & Hn & _).
    all: unfold after_credentials.
    + destruct (build _ _ _ _ _); intros [= _ <-] Hwf;
        cbn [_services next_id with_trace]; rewrite ?Hs, ?Hn.
      * apply map_Forall_insert_2; [cbn [svc_id]; lia|].
        eapply map_Forall_impl; [exact Hwf|]. cbn beta. intros. lia.
      * exact Hwf.
    + intros [= _ <-] Hwf. cbn [_services next_id with_trace].
      by rewrite Hs, Hn.
Qed.

Lemma cache_wf_clear_cache st : cache_wf (clear_cache st).2.
Proof. unfold cache_wf. cbn. apply map_Forall_empty. Qed.

Lemma cache_wf_validate_credentials st :
  cache_wf st -> cache_wf (validate_credentials settings env st).2.
Proof.
  intros Hwf. rewrite validate_credentials_unfold.
  destruct (get_service _ _ _ _ _ st) as [[service|e] st1] eqn:Hg;
    pose proof (cache_wf_get_service _ _ _ _ _ _ Hg Hwf) as Hwf1.
  - destruct (getProfile_execute _ _ _ _); exact Hwf1.
  - exact Hwf1.
Qed.

Lemma cache_wf_run_ops ops st :
  cache_wf st -> cache_wf (run_ops settings env ops st).
Proof.
  revert st. induction ops as [|op ops IH]; intros st Hwf; [exact Hwf|].
  cbn [run_ops foldl]. apply IH. destruct op as [a v s|]; cbn [run_op].
  - destruct (get_service settings env a v s st) as [r st'] eqn:Hg.
    exact (cache_wf_get_service _ _ _ _ _ _ Hg Hwf).
  - by apply cache_wf_validate_credentials.
Qed.

End Invariant.

(** ** The code on concrete inputs *)



(** C2 fails as stated: after a call with two scopes, a call with the
    same two scopes in the other order builds a second service object and
    goes to the disk and the network again. *)
Lemma reordered_scopes_miss :
  Permutation Demo.scopes_ab Demo.scopes_ba
  /\ (get_service default_settings Demo.env "gmail" "v1" (Some Demo.scopes_ab)
        (Demo.start (Demo.with_token "valid"))).1
     = Ok (Demo.gmail_service 0 (Demo.valid_creds Demo.scopes_ab))
  /\ (get_service default_settings Demo.env "gmail" "v1" (Some Demo.scopes_ba)
        Demo.after_scopes_ab).1
     = Ok (Demo.gmail_service 1 (Demo.valid_creds Demo.scopes_ba))
  /\ existsb is_io
       (new_events Demo.after_scopes_ab
          (get_service default_settings Demo.env "gmail" "v1" (Some Demo.scopes_ba)
             Demo.after_scopes_ab).2)
     = true.
Proof.
  split; [apply perm_swap|].
  repeat split; vm_compute; reflexivity.
Qed.

Lemma equal_hash_shares_entry_witness :
  get_service default_settings Demo.env "gmail" "v1" (Some Demo.scopes_ab)
    Demo.after_scopes_ab
  = (Ok (Demo.gmail_service 0 (Demo.valid_creds Demo.scopes_ab)),
     with_trace (EvLog DEBUG ("Returning cached service for " +:+ "gmail")
                   :: trace Demo.after_scopes_ab) Demo.after_scopes_ab).
Proof.
  refine (proj2 (equal_hash_shares_entry default_settings Demo.env "gmail" "v1"
                   Demo.scopes_ab Demo.scopes_ab
                   (Demo.start (Demo.with_token "valid"))
                   (Demo.gmail_service 0 (Demo.valid_creds Demo.scopes_ab))
                   Demo.after_scopes_ab eq_refl _)).
  vm_compute. reflexivity.
Defined.

(** C3 fails as stated: with a revoked refresh token, and a client-secrets
    file present that the consent flow could use, [get_service] raises the
    refresh failure and never starts the consent flow. *)
Lemma refresh_failure_is_raised :
  file_exists (Demo.with_token "revoked") "credentials.json" = true
  /\ (get_service default_settings Demo.env "gmail" "v1" None
        (Demo.start (Demo.with_token "revoked"))).1
     = Raise {| exc_class := GoogleAuthError;
                exc_msg := "Failed to create gmail service: Failed to authenticate with Google: invalid_grant: Token has been expired or revoked." |}
  /\ List.filter is_refresh
       (trace (get_service default_settings Demo.env "gmail" "v1" None
                 (Demo.start (Demo.with_token "revoked"))).2)
     = [EvRefresh (Demo.revoked_creds Demo.gmail) (Raise Demo.refresh_error)]
  /\ existsb is_interactive
       (trace (get_service default_settings Demo.env "gmail" "v1" None
                 (Demo.start (Demo.with_token "revoked"))).2)
     = false.
Proof. repeat split; vm_compute; reflexivity. Qed.

Lemma refresh_failure_surfaces_witness :
  EvRefresh (Demo.revoked_creds Demo.gmail) (Raise Demo.refresh_error)
    ∈ new_events (Demo.start (Demo.with_token "revoked"))
        (get_service default_settings Demo.env "gmail" "v1" None
           (Demo.start (Demo.with_token "revoked"))).2
  /\ existsb is_interactive
       (new_events (Demo.start (Demo.with_token "revoked"))
          (get_service default_settings Demo.env "gmail" "v1" None
             (Demo.start (Demo.with_token "revoked"))).2)
     = false.
Proof.
  assert (EvRefresh (Demo.revoked_creds Demo.gmail) (Raise Demo.refresh_error)
    ∈ new_events (Demo.start (Demo.with_token "revoked"))
        (get_service default_settings Demo.env "gmail" "v1" None
           (Demo.start (Demo.with_token "revoked"))).2) as Hin.
  { vm_compute. elem_solve. }
  split; [exact Hin|].
  exact (proj1 (proj2 (refresh_failure_surfaces default_settings Demo.env
                         "gmail" "v1" None _ _ _ _ _ (surjective_pairing _) Hin))).
Defined.

(** C4 fails as stated: with no service account, no token file and no
    client-secrets file, credential resolution raises and no consent flow
    runs. *)
Lemma missing_client_secrets_no_flow :
  truthy (google_service_account_path default_settings) = false
  /\ file_exists Demo.no_files "token.json" = false
  /\ (_get_credentials default_settings Demo.env Demo.gmail
        (Demo.start Demo.no_files)).1
     = Raise {| exc_class := GoogleAuthError;
                exc_msg := "Failed to authenticate with Google: Credentials file not found: credentials.json" |}
  /\ existsb is_interactive
       (trace (_get_credentials default_settings Demo.env Demo.gmail
                 (Demo.start Demo.no_files)).2)
     = false.
Proof. repeat split; vm_compute; reflexivity. Qed.

Lemma credential_resolution_order_witness :
  (truthy (google_service_account_path default_settings) = false
   /\ file_exists (Demo.with_token "expired") "token.json" = true)
  /\ (exists res,
        List.filter is_refresh
          (new_events (Demo.start (Demo.with_token "expired"))
             (_get_credentials default_settings Demo.env Demo.gmail
                (Demo.start (Demo.with_token "expired"))).2)
        = [EvRefresh (Demo.expired_creds Demo.gmail) res])
  /\ existsb is_interactive
       (new_events (Demo.start (Demo.with_token "expired"))
          (_get_credentials default_settings Demo.env Demo.gmail
             (Demo.start (Demo.with_token "expired"))).2)
     = false.
Proof.
  split; [split; reflexivity|].
  destruct (credential_resolution_order default_settings Demo.env Demo.gmail
              (Demo.start (Demo.with_token "expired")) _ _
              (surjective_pairing _)) as [_ Hoauth].
  destruct (Hoauth (or_introl eq_refl)) as (_ & _ & _ & Htoken).
  destruct (Htoken eq_refl) as (token & Hasked & Hcase).
  assert (token = Ok (Demo.expired_creds Demo.gmail)) as ->.
  { apply asked_elem in Hasked. vm_compute in Hasked. elem_inv Hasked.
    by simplify_eq. }
  destruct Hcase as [(res & _ & Hfilter & _) Hni].
  split; [by exists res|exact Hni].
Defined.

Lemma cached_call_repeats_witness :
  get_service default_settings Demo.env "gmail" "v1" None
    (Demo.start (Demo.with_token "valid"))
  = (Ok (Demo.gmail_service 0 (Demo.valid_creds Demo.gmail)), Demo.after_first_call)
  /\ existsb is_io
       (new_events
          (run_ops default_settings Demo.env
             [OpGetService "drive" "v3" None; OpValidate] Demo.after_first_call)
          (get_service default_settings Demo.env "gmail" "v1" None
             (run_ops default_settings Demo.env
                [OpGetService "drive" "v3" None; OpValidate] Demo.after_first_call)).2)
     = false.
Proof.
  assert (get_service default_settings Demo.env "gmail" "v1" None
            (Demo.start (Demo.with_token "valid"))
          = (Ok (Demo.gmail_service 0 (Demo.valid_creds Demo.gmail)),
             Demo.after_first_call)) as Hfirst.
  { vm_compute. reflexivity. }
  split; [exact Hfirst|].
  exact (proj1 (proj2 (cached_call_repeats default_settings Demo.env "gmail" "v1" None
                         _ _ _ [OpGetService "drive" "v3" None; OpValidate] Hfirst))).
Defined.

Lemma failed_call_keeps_cache_witness :
  get_service default_settings Demo.env "calendar" "v3" None
    (with_fs Demo.no_files Demo.after_first_call)
  = (Raise (service_error "calendar"
              {| exc_class := GoogleAuthError;
                 exc_msg := "Failed to authenticate with Google: Credentials file not found: credentials.json" |}),
     (get_service default_settings Demo.env "calendar" "v3" None
        (with_fs Demo.no_files Demo.after_first_call)).2)
  /\ _services (get_service default_settings Demo.env "calendar" "v3" None
                  (with_fs Demo.no_files Demo.after_first_call)).2
     = _services (with_fs Demo.no_files Demo.after_first_call).
Proof.
  assert (get_service default_settings Demo.env "calendar" "v3" None
            (with_fs Demo.no_files Demo.after_first_call)
          = (Raise (service_error "calendar"
              {| exc_class := GoogleAuthError;
                 exc_msg := "Failed to authenticate with Google: Credentials file not found: credentials.json" |}),
             (get_service default_settings Demo.env "calendar" "v3" None
                (with_fs Demo.no_files Demo.after_first_call)).2)) as Hfail.
  { vm_compute. reflexivity. }
  split; [exact Hfail|].
  exact (proj2 (proj2 (failed_call_keeps_cache default_settings Demo.env
                         "calendar" "v3" None _ _ _ Hfail))).
Defined.


Lemma fresh_token_is_saved_witness :
  (get_service default_settings Demo.env "gmail" "v1" None
     (Demo.start (Demo.with_token "expired"))
   = (Ok (Demo.gmail_service 0 (Demo.valid_creds Demo.gmail)),
      (get_service default_settings Demo.env "gmail" "v1" None
         (Demo.start (Demo.with_token "expired"))).2)
   /\ EvRefresh (Demo.expired_creds Demo.gmail) (Ok (Demo.valid_creds Demo.gmail))
        ∈ new_events (Demo.start (Demo.with_token "expired"))
            (get_service default_settings Demo.env "gmail" "v1" None
               (Demo.start (Demo.with_token "expired"))).2)
  /\ fs (get_service default_settings Demo.env "gmail" "v1" None
           (Demo.start (Demo.with_token "expired"))).2 !! "token.json"
     = Some "token=live refresh_token=1//refresh".
Proof.
  assert (get_service default_settings Demo.env "gmail" "v1" None
            (Demo.start (Demo.with_token "expired"))
          = (Ok (Demo.gmail_service 0 (Demo.valid_creds Demo.gmail)),
             (get_service default_settings Demo.env "gmail" "v1" None
                (Demo.start (Demo.with_token "expired"))).2)) as Hcall.
  { vm_compute. reflexivity. }
  assert (EvRefresh (Demo.expired_creds Demo.gmail) (Ok (Demo.valid_creds Demo.gmail))
            ∈ new_events (Demo.start (Demo.with_token "expired"))
                (get_service default_settings Demo.env "gmail" "v1" None
                   (Demo.start (Demo.with_token "expired"))).2) as Hin.
  { vm_compute. elem_solve. }
  split; [split; [exact Hcall|exact Hin]|].
  refine (proj1 (fresh_token_is_saved default_settings Demo.env "gmail" "v1" None
                   _ _ _ (Demo.valid_creds Demo.gmail) Hcall _)).
  left. exists (Demo.expired_creds Demo.gmail). exact Hin.
Defined.

Lemma unreadable_token_is_no_token_witness :
  EvTokenLoad "token.json" Demo.gmail
    (Raise (Demo.value_error "Expecting value: line 1 column 1 (char 0)"))
    ∈ new_events (Demo.start (Demo.with_token "garbage"))
        (get_service default_settings Demo.env "gmail" "v1" None
           (Demo.start (Demo.with_token "garbage"))).2
  /\ EvLog INFO "Creating new credentials via OAuth flow"
       ∈ new_events (Demo.start (Demo.with_token "garbage"))
           (get_service default_settings Demo.env "gmail" "v1" None
              (Demo.start (Demo.with_token "garbage"))).2
  /\ (get_service default_settings Demo.env "gmail" "v1" None
        (Demo.start (Demo.with_token "garbage"))).1
     = Ok (Demo.gmail_service 0 (Demo.consented_creds Demo.gmail)).
Proof.
  assert (EvTokenLoad "token.json" Demo.gmail
    (Raise (Demo.value_error "Expecting value: line 1 column 1 (char 0)"))
    ∈ new_events (Demo.start (Demo.with_token "garbage"))
        (get_service default_settings Demo.env "gmail" "v1" None
           (Demo.start (Demo.with_token "garbage"))).2) as Hin.
  { vm_compute. elem_solve. }
  split; [exact Hin|].
  destruct (unreadable_token_is_no_token default_settings Demo.env "gmail" "v1" None
              (Demo.start (Demo.with_token "garbage")) _ _ _
              (surjective_pairing _) Hin) as (_ & _ & Hflow & Hok).
  split; [exact Hflow|].
  apply Hok. split; [|split].
  - eexists. vm_compute. elem_solve.
  - vm_compute. elem_solve.
  - vm_compute. elem_solve.
Defined.

(** C9 fails as stated: with a Gmail service cached and the credential
    files gone, credential resolution fails for lack of configuration, yet
    [validate_credentials] returns [True] without looking at the disk. *)
Lemma cached_handle_validates_without_files :
  (_get_credentials default_settings Demo.env Demo.gmail
     (with_fs Demo.no_files Demo.after_first_call)).1
  = Raise {| exc_class := GoogleAuthError;
             exc_msg := "Failed to authenticate with Google: Credentials file not found: credentials.json" |}
  /\ (validate_credentials default_settings Demo.env
        (with_fs Demo.no_files Demo.after_first_call)).1
     = Ok true
  /\ existsb is_storage
       (new_events (with_fs Demo.no_files Demo.after_first_call)
          (validate_credentials default_settings Demo.env
             (with_fs Demo.no_files Demo.after_first_call)).2)
     = false.
Proof. repeat split; vm_compute; reflexivity. Qed.

Lemma validate_credentials_bool_witness :
  (_services (with_fs Demo.no_files Demo.after_first_call)
     !! service_key Demo.env "gmail" "v1" Demo.gmail
   = Some (Demo.gmail_service 0 (Demo.valid_creds Demo.gmail))
   /\ (validate_credentials default_settings Demo.env
         (with_fs Demo.no_files Demo.after_first_call)).1 = Ok true)
  /\ (_services (Demo.start Demo.no_files)
        !! service_key Demo.env "gmail" "v1" Demo.gmail = None
      /\ existsb is_storage
           (new_events (Demo.start Demo.no_files)
              (validate_credentials default_settings Demo.env
                 (Demo.start Demo.no_files)).2)
         = true).
Proof.
  assert (_services (with_fs Demo.no_files Demo.after_first_call)
            !! service_key Demo.env "gmail" "v1" Demo.gmail
          = Some (Demo.gmail_service 0 (Demo.valid_creds Demo.gmail))) as Hhit.
  { vm_compute. reflexivity. }
  assert (_services (Demo.start Demo.no_files)
            !! service_key Demo.env "gmail" "v1" Demo.gmail = None) as Hmiss.
  { vm_compute. reflexivity. }
  split; split; [exact Hhit| |exact Hmiss|].
  - destruct (validate_credentials_bool default_settings Demo.env
                (with_fs Demo.no_files Demo.after_first_call)) as (_ & Hcached & _).
    destruct (Hcached _ Hhit) as (Htrue & _).
    apply Htrue. eexists. reflexivity.
  - destruct (validate_credentials_bool default_settings Demo.env
                (Demo.start Demo.no_files)) as (_ & _ & Hfresh).
    exact (proj1 (Hfresh Hmiss)).
Defined.

Lemma validate_credentials_without_files :
  (validate_credentials default_settings Demo.env (Demo.start Demo.no_files)).1 = Ok false.
Proof. vm_compute. reflexivity. Qed.

(** * Further properties of the code *)

(** ** Strings *)

Lemma string_app_assoc (a b c : string) : (a +:+ b) +:+ c = a +:+ (b +:+ c).
Proof.
  induction a as [|x a IH]; [reflexivity|].
  change (String x ((a +:+ b) +:+ c) = String x (a +:+ (b +:+ c))). by rewrite IH.
Qed.

(** ** More on the service manager *)

Section Manager.

Variable settings : Settings.
Variable env : Env.

Lemma refresh_credentials_unfold st :
  refresh_credentials settings env st
  = validate_credentials settings env (clear_cache st).2.
Proof.
  unfold refresh_credentials, try_except. unfold bind at 1.
  rewrite clear_cache_unfold. cbn [snd].
  rewrite validate_credentials_unfold.
  destruct (get_service _ _ _ _ _ _) as [[service|e] st1]; [|reflexivity].
  destruct (getProfile_execute _ _ _ _); reflexivity.
Qed.

(** X1: [refresh_credentials] is [validate_credentials] run on the
    emptied cache, and so never raises: it returns a boolean. *)
Theorem refresh_credentials_never_raises st :
  refresh_credentials settings env st
  = validate_credentials settings env (clear_cache st).2
  /\ exists b, (refresh_credentials settings env st).1 = Ok b.
Proof.
  split; [apply refresh_credentials_unfold|].
  rewrite refresh_credentials_unfold, validate_credentials_unfold.
  destruct (get_service _ _ _ _ _ _) as [[service|e] st1]; [|by eexists].
  destruct (getProfile_execute _ _ _ _); by eexists.
Qed.

(** X2: after [refresh_credentials] the cache holds nothing from before:
    its only possible entry is the Gmail service built during the call,
    which is there whenever the call returns [True]; and the call has read
    credential storage again. *)
Theorem refresh_credentials_rebuilds st :
  let st' := (refresh_credentials settings env st).2 in
  let key := service_key env "gmail" "v1" (get_google_scopes settings "gmail") in
  (forall k service, _services st' !! k = Some service ->
     k = key /\ svc_id service = next_id st
     /\ svc_api service = "gmail" /\ svc_version service = "v1")
  /\ ((refresh_credentials settings env st).1 = Ok true -> is_Some (_services st' !! key))
  /\ existsb is_storage (new_events st st') = true.
Proof.
  cbv zeta. rewrite refresh_credentials_unfold, validate_credentials_unfold.
  rewrite clear_cache_unfold. cbn [snd].
  set (st0 := {| _services := ∅; fs := fs st;
                 trace := EvLog INFO "Cleared service cache" :: trace st;
                 next_id := next_id st |}).
  rewrite get_service_unfold. cbv zeta.
  change (_services st0) with (∅ : gmap string Service). rewrite lookup_empty.
  cbn [requested_scopes].
  destruct (_get_credentials settings env _ st0) as [rc stc] eqn:Hc.
  destruct (get_credentials_storage _ _ _ _ _ _ Hc) as [Hsto _].
  apply get_credentials_frame in Hc as (Hs & Hn & Ht).
  assert (forall l st', trace st' = l ++ trace stc ->
            existsb is_storage (new_events st st') = true) as Hev.
  { intros l st' Hl.
    rewrite (new_events_app st st' (l ++ new_events st0 stc ++ [EvLog INFO "Cleared service cache"])).
    - by rewrite !existsb_app, Hsto, orb_true_r.
    - rewrite Hl, Ht. cbn [trace st0]. by rewrite <- !app_assoc. }
  cbn [fst snd]. unfold after_credentials.
  destruct rc as [creds|e].
  - destruct (build _ _ _ _ _) as [u|e].
    + set (service := {| svc_id := next_id stc |}).
      assert (forall st', _services st' = <[service_key env "gmail" "v1"
                 (get_google_scopes settings "gmail") := service]> (_services stc) ->
              forall k s, _services st' !! k = Some s ->
                k = service_key env "gmail" "v1" (get_google_scopes settings "gmail")
                /\ svc_id s = next_id st /\ svc_api s = "gmail" /\ svc_version s = "v1")
        as Hone.
      { intros st' -> k s. rewrite Hs. change (_services st0) with (∅ : gmap string Service).
        rewrite lookup_insert. case_decide as Hk; [|by rewrite lookup_empty].
        intros [= <-]. subst k. cbn. by rewrite Hn. }
      destruct (getProfile_execute _ _ _ _) as [p|e]; cbn [fst snd].
      * split; [by apply Hone|]. split.
        -- intros _. cbn [_services with_trace]. rewrite lookup_insert_eq. by eexists.
        -- by eapply (Hev [_; _; _; _; _]).
      * split; [by apply Hone|]. split; [done|]. by eapply (Hev [_; _; _; _; _]).
    + cbn [fst snd]. split; [|split; [done|by eapply (Hev [_; _; _; _])]].
      intros k s. cbn [_services with_trace]. rewrite Hs.
      change (_services st0) with (∅ : gmap string Service). by rewrite lookup_empty.
  - cbn [fst snd]. split; [|split; [done|by eapply (Hev [_; _])]].
    intros k s. cbn [_services with_trace]. rewrite Hs.
    change (_services st0) with (∅ : gmap string Service). by rewrite lookup_empty.
Qed.

(** X3: when [get_service] returns a Gmail service and the identity
    check on it fails, [validate_credentials] returns [False] but the
    service stays in the cache: the next [get_service] returns that same
    object without resolving credentials again. *)
Theorem failed_validation_keeps_handle st service st1 e :
  get_service settings env "gmail" "v1" None st = (Ok service, st1) ->
  getProfile_execute env (trace st1) service "me" = Raise e ->
  let st' := (validate_credentials settings env st).2 in
  (validate_credentials settings env st).1 = Ok false
  /\ _services st' !! service_key env "gmail" "v1" (get_google_scopes settings "gmail")
     = Some service
  /\ get_service settings env "gmail" "v1" None st'
     = (Ok service,
        with_trace (EvLog DEBUG ("Returning cached service for " +:+ "gmail")
                      :: trace st') st').
Proof.
  intros Hg Hp. cbv zeta. rewrite validate_credentials_unfold, Hg, Hp. cbn [fst snd].
  split; [reflexivity|].
  pose proof (get_service_caches _ _ _ _ _ _ _ _ Hg) as Hk. cbn [requested_scopes] in Hk.
  split; [exact Hk|]. by apply get_service_hit.
Qed.

(** X4: a call of [get_service] only ever adds to the cache, and only
    under the key of the call. *)
Theorem get_service_cache_grows api_name api_version scopes st r st' :
  get_service settings env api_name api_version scopes st = (r, st') ->
  _services st ⊆ _services st'
  /\ forall k, k <> service_key env api_name api_version
                      (requested_scopes settings api_name scopes) ->
       _services st' !! k = _services st !! k.
Proof.
  rewrite get_service_unfold. cbv zeta.
  destruct (_services st !! _) as [cached|] eqn:Hkey.
  - intros [= _ <-]. done.
  - destruct (_get_credentials _ _ _ st) as [[creds|e] st1] eqn:Hc; cbn [fst snd].
    all: apply get_credentials_frame in Hc as (Hs & _ & _).
    all: unfold after_credentials.
    + destruct (build _ _ _ _ _); intros [= _ <-]; cbn [_services with_trace]; rewrite Hs.
      * split; [by apply insert_subseteq|]. intros k Hk. by rewrite lookup_insert_ne.
      * done.
    + intros [= _ <-]. cbn [_services with_trace]. by rewrite Hs.
Qed.

(** X5: the cache key joins name, version and hash with underscores, so
    two requests that split the same text differently share one entry:
    after a call for the API [a_b] in version [c], a call for the API [a]
    in version [b_c] with the same scopes returns the object built for
    the first. *)
Theorem cache_key_collides a b c scopes st service st1 :
  get_service settings env (a +:+ "_" +:+ b) c (Some scopes) st = (Ok service, st1) ->
  get_service settings env a (b +:+ "_" +:+ c) (Some scopes) st1
  = (Ok service,
     with_trace (EvLog DEBUG ("Returning cached service for " +:+ a) :: trace st1) st1).
Proof.
  intros Hg. apply get_service_hit. cbn [requested_scopes].
  apply get_service_caches in Hg. cbn [requested_scopes] in Hg.
  rewrite <- Hg. f_equal. unfold service_key.
  by rewrite !string_app_assoc.
Qed.

Lemma service_key_hash_inj api_name api_version s1 s2 :
  service_key env api_name api_version s1 = service_key env api_name api_version s2 ->
  hash_tuple env s1 = hash_tuple env s2.
Proof.
  unfold service_key. intros H.
  do 4 apply String.app_inj in H. by apply pretty_Z_inj in H.
Qed.

(** X6: scope lists with different tuple hashes have different keys:
    after a call with the first list, a call with the second, not cached
    before, takes the cache-miss path and reads credential storage. *)
Theorem different_hash_resolves_again api_name api_version s1 s2 st r1 st1 :
  hash_tuple env s1 <> hash_tuple env s2 ->
  _services st !! service_key env api_name api_version s2 = None ->
  get_service settings env api_name api_version (Some s1) st = (r1, st1) ->
  let st2 := (get_service settings env api_name api_version (Some s2) st1).2 in
  service_key env api_name api_version s1 <> service_key env api_name api_version s2
  /\ get_service settings env api_name api_version (Some s2) st1
     = after_credentials env api_name api_version
         (service_key env api_name api_version s2)
         (_get_credentials settings env s2 st1).1
         (_get_credentials settings env s2 st1).2
  /\ existsb is_storage (new_events st1 st2) = true.
Proof.
  intros Hh Hnone Hg. cbv zeta.
  assert (service_key env api_name api_version s1
          <> service_key env api_name api_version s2) as Hk.
  { intros Heq. by apply Hh, (service_key_hash_inj api_name api_version). }
  split; [exact Hk|].
  assert (_services st1 !! service_key env api_name api_version s2 = None) as Hnone1.
  { rewrite get_service_unfold in Hg. cbv zeta in Hg. cbn [requested_scopes] in Hg.
    destruct (_services st !! service_key env api_name api_version s1) as [cached|].
    - injection Hg as _ <-. done.
    - destruct (_get_credentials _ _ _ st) as [[creds|e] stc] eqn:Hc; cbn [fst snd] in Hg.
      all: apply get_credentials_frame in Hc as (Hs & _ & _).
      all: unfold after_credentials in Hg.
      + destruct (build _ _ _ _ _); injection Hg as _ <-; cbn [_services with_trace];
          rewrite Hs; [|done].
        by rewrite lookup_insert_ne.
      + injection Hg as _ <-. cbn [_services with_trace]. by rewrite Hs. }
  assert (get_service settings env api_name api_version (Some s2) st1
     = after_credentials env api_name api_version
         (service_key env api_name api_version s2)
         (_get_credentials settings env s2 st1).1
         (_get_credentials settings env s2 st1).2) as Hmiss.
  { rewrite get_service_unfold. cbv zeta. cbn [requested_scopes]. by rewrite Hnone1. }
  split; [exact Hmiss|]. rewrite Hmiss.
  destruct (_get_credentials settings env s2 st1) as [rc stc] eqn:Hc.
  destruct (get_credentials_storage _ _ _ _ _ _ Hc) as [Hsto _].
  apply get_credentials_frame in Hc as (_ & _ & Ht).
  cbn [fst snd]. unfold after_credentials.
  destruct rc as [creds|e]; [destruct (build _ _ _ _ _)|]; cbn [snd].
  - erewrite new_events_trans; [|exact Ht|by instantiate (1 := [_; _; _])].
    by rewrite existsb_app, Hsto, orb_true_r.
  - erewrite new_events_trans; [|exact Ht|by instantiate (1 := [_; _; _])].
    by rewrite existsb_app, Hsto, orb_true_r.
  - erewrite new_events_trans; [|exact Ht|by instantiate (1 := [_])].
    by rewrite existsb_app, Hsto, orb_true_r.
Qed.

(** X7: once a service is cached, [get_service] returns it whatever has
    happened to the files on disk since. *)
Theorem cached_handle_ignores_disk api_name api_version scopes st service st1 files :
  get_service settings env api_name api_version scopes st = (Ok service, st1) ->
  get_service settings env api_name api_version scopes (with_fs files st1)
  = (Ok service,
     with_trace (EvLog DEBUG ("Returning cached service for " +:+ api_name)
                   :: trace st1) (with_fs files st1)).
Proof.
  intros Hg. apply get_service_caches in Hg.
  by rewrite (get_service_hit settings env api_name api_version scopes
                (with_fs files st1) service Hg).
Qed.

End Manager.

(** ** Invariants of whole sessions *)

Section Sessions.

Variable settings : Settings.
Variable env : Env.

Lemma cache_distinct_get_service api_name api_version scopes st r st' :
  get_service settings env api_name api_version scopes st = (r, st') ->
  cache_wf st -> cache_distinct st -> cache_distinct st'.
Proof.
  rewrite get_service_unfold. cbv zeta. unfold cache_wf, cache_distinct.
  destruct (_services st !! _) as [cached|] eqn:Hkey.
  - intros [= _ <-]. done.
  - destruct (_get_credentials _ _ _ st) as [[creds|e] st1] eqn:Hc; cbn [fst snd].
    all: apply get_credentials_frame in Hc as (Hs & Hn & _).
    all: unfold after_credentials.
    + destruct (build _ _ _ _ _); intros [= _ <-] Hwf Hd;
        cbn [_services with_trace]; rewrite ?Hs; [|exact Hd].
      intros k1 k2 s1 s2. rewrite !lookup_insert.
      repeat case_decide; subst; try done.
      * intros [= <-] H2 Hid. apply Hwf in H2. cbn in Hid, H2. lia.
      * intros H1 [= <-] Hid. apply Hwf in H1. cbn in Hid, H1. lia.
      * apply Hd.
    + intros [= _ <-] Hwf Hd. cbn [_services with_trace]. by rewrite Hs.
Qed.

Lemma session_step a st :
  cache_wf st /\ cache_distinct st ->
  cache_wf (run_action settings env a st) /\ cache_distinct (run_action settings env a st).
Proof.
  assert (forall st0, cache_wf st0 /\ cache_distinct st0 ->
            cache_wf (validate_credentials settings env st0).2
            /\ cache_distinct (validate_credentials settings env st0).2) as Hval.
  { intros st0 [Hwf Hd]. split; [by apply cache_wf_validate_credentials|].
    rewrite validate_credentials_unfold.
    destruct (get_service _ _ _ _ _ st0) as [[service|e] st1] eqn:Hg;
      pose proof (cache_distinct_get_service _ _ _ _ _ _ Hg Hwf Hd) as Hd1.
    - destruct (getProfile_execute _ _ _ _); exact Hd1.
    - exact Hd1. }
  assert (cache_wf (clear_cache st).2 /\ cache_distinct (clear_cache st).2) as Hclear.
  { split; [apply cache_wf_clear_cache|].
    intros k1 k2 s1 s2 H1. rewrite clear_cache_unfold in H1. cbn [snd _services] in H1.
    by rewrite lookup_empty in H1. }
  intros [Hwf Hd]. destruct a as [api_name api_version scopes| | |]; cbn [run_action].
  - unfold get_google_service.
    destruct (get_service settings env api_name api_version scopes st) as [r st'] eqn:Hg.
    split.
    + exact (cache_wf_get_service _ _ _ _ _ _ _ _ Hg Hwf).
    + exact (cache_distinct_get_service _ _ _ _ _ _ Hg Hwf Hd).
  - by apply Hval.
  - exact Hclear.
  - assert (refresh_credentials settings env st
            = validate_credentials settings env (clear_cache st).2) as ->.
    { unfold refresh_credentials, try_except. unfold bind at 1.
      rewrite clear_cache_unfold. cbn [snd].
      rewrite validate_credentials_unfold.
      destruct (get_service _ _ _ _ _ _) as [[service|e] st1]; [|reflexivity].
      destruct (getProfile_execute _ _ _ _); reflexivity. }
    by apply Hval.
Qed.

(** X8: from an empty cache, whatever sequence of [get_google_service],
    [validate_credentials], [clear_cache] and [refresh_credentials] calls
    is made, every cached object was built earlier and no object is cached
    under two keys. *)
Theorem session_keeps_cache_sound actions st :
  _services st = ∅ ->
  cache_wf (run_actions settings env actions st)
  /\ cache_distinct (run_actions settings env actions st).
Proof.
  intros Hempty.
  assert (cache_wf st /\ cache_distinct st) as Hinv.
  { split.
    - unfold cache_wf. rewrite Hempty. apply map_Forall_empty.
    - intros k1 k2 s1 s2 H1. by rewrite Hempty, lookup_empty in H1. }
  clear Hempty. revert st Hinv.
  induction actions as [|a actions IH]; intros st Hinv; [exact Hinv|].
  cbn [run_actions foldl]. apply IH. by apply session_step.
Qed.

End Sessions.

(** ** Credential resolution and the disk *)

Section Disk.

Variable settings : Settings.
Variable env : Env.

(** What a run of credential resolution reads from and writes to the disk. *)
Lemma get_credentials_disk scopes st r st' :
  _get_credentials settings env scopes st = (r, st') ->
  (forall path found, EvExists path found ∈ new_events st st' ->
     file_exists (fs st) path = found)
  /\ (forall path, path <> google_token_path settings -> fs st' !! path = fs st !! path)
  /\ (forall e, EvOpenWrite (google_token_path settings) (Raise e) ∈ new_events st st' ->
        r = Raise (authentication_error e) /\ fs st' = fs st).
Proof.
  intros H. run_credentials H st.
  all: new_events_simpl; cbn [fs].
  all: split; [ intros path found Hin; elem_inv Hin; by simplify_eq | ].
  all: split; [ intros path Hp; by rewrite ?lookup_insert_ne | ].
  all: intros e0 Hin; elem_inv Hin; by simplify_eq.
Qed.

(** Every failure of credential resolution is wrapped once and logged once. *)
Lemma get_credentials_error scopes st e st' :
  _get_credentials settings env scopes st = (Raise e, st') ->
  exists cause,
    e = authentication_error cause
    /\ EvLog ERROR ("Error in " +:+ "Google authentication" +:+ ": " +:+ exc_msg cause)
         ∈ new_events st st'.
Proof.
  intros H. run_credentials H st.
  all: new_events_simpl.
  all: first
    [ eexists; split; [reflexivity|elem_solve]
    | lazymatch goal with
      | |- ex (fun cause => {| exc_class := _; exc_msg := _ +:+ ?m |} = _ /\ _) =>
          exists {| exc_class := GoogleAuthError; exc_msg := m |};
          split; [reflexivity|elem_solve]
      end ].
Qed.

(** A token that loads but is neither valid nor refreshable: a returned
    credential comes from the consent flow and is in the token file. *)
Lemma get_credentials_reconsent scopes st r st' c :
  _get_credentials settings env scopes st = (r, st') ->
  EvTokenLoad (google_token_path settings) scopes (Ok c) ∈ new_events st st' ->
  valid c = false -> expired c && truthy (refresh_token c) = false ->
  existsb is_refresh (new_events st st') = false
  /\ forall creds, r = Ok creds ->
       (exists f, EvRunLocalServer f (Ok creds) ∈ new_events st st')
       /\ fs st' !! google_token_path settings = Some (to_json creds).
Proof.
  intros H Hin Hv Hr. run_credentials H st.
  all: new_events_simpl; cbn [fs].
  all: elem_inv Hin; simplify_eq; try congruence.
  all: split; [reflexivity|].
  all: intros creds Hc; simplify_eq.
  all: rewrite lookup_insert_eq; split; [eexists; elem_solve|reflexivity].
Qed.

(** With no service account, no token file and no client-secrets file
    there is one way to go. *)
Lemma get_credentials_missing_files scopes st :
  truthy (google_service_account_path settings) = false
  \/ file_exists (fs st) (default "" (google_service_account_path settings)) = false ->
  file_exists (fs st) (google_token_path settings) = false ->
  file_exists (fs st) (google_credentials_path settings) = false ->
  (_get_credentials settings env scopes st).1
  = Raise (authentication_error
             {| exc_class := GoogleAuthError;
                exc_msg := "Credentials file not found: "
                           +:+ google_credentials_path settings |})
  /\ existsb is_network (new_events st (_get_credentials settings env scopes st).2) = false
  /\ fs (_get_credentials settings env scopes st).2 = fs st.
Proof.
  intros Hsa Htok Hcred.
  destruct (_get_credentials settings env scopes st) as [r st'] eqn:H.
  cbn [fst snd]. run_credentials H st.
  all: cbn [fs] in *; try congruence.
  all: try (destruct Hsa; congruence).
  all: new_events_simpl; done.
Qed.

End Disk.

Section DiskService.

Variable settings : Settings.
Variable env : Env.

(** X9: every failure of [get_service] is logged: the error raised wraps
    a cause, the log of the call holds the error entry for that cause,
    and the cause is either a failed [build] or a failure of credential
    resolution, itself logged. *)
Theorem failure_is_logged api_name api_version scopes st e st' :
  get_service settings env api_name api_version scopes st = (Raise e, st') ->
  exists cause,
    e = service_error api_name cause
    /\ service_error_log api_name cause ∈ new_events st st'
    /\ ((exists creds, EvBuild api_name api_version creds (Raise cause) ∈ new_events st st')
        \/ (exists inner,
              cause = authentication_error inner
              /\ EvLog ERROR ("Error in " +:+ "Google authentication" +:+ ": "
                              +:+ exc_msg inner) ∈ new_events st st')).
Proof.
  intros H. apply get_service_cases in H. cbv zeta in H.
  destruct H as [(service & _ & [=] & _)
                |[(e1 & st1 & Hc & [= ->] & Hn & _)
                |[(creds & st1 & e1 & Hc & [= ->] & Hn & _)
                | (creds & st1 & service & _ & [=] & _)]]];
    rewrite Hn.
  - exists e1. split; [reflexivity|]. split; [apply elem_of_app; left; elem_solve|].
    right. destruct (get_credentials_error _ _ _ _ _ _ Hc) as (inner & -> & Hlog).
    exists inner. split; [reflexivity|]. apply elem_of_app. by right.
  - exists e1. split; [reflexivity|]. split; [apply elem_of_app; left; elem_solve|].
    left. exists creds. apply elem_of_app. left. elem_solve.
Qed.


Lemma get_service_disk api_name api_version scopes st r st' :
  get_service settings env api_name api_version scopes st = (r, st') ->
  forall path, path <> google_token_path settings -> fs st' !! path = fs st !! path.
Proof.
  intros H path Hp. apply get_service_cases in H. cbv zeta in H.
  destruct H as [(service & _ & _ & _ & -> & _)
                |[(e1 & st1 & Hc & _ & _ & -> & _)
                |[(creds & st1 & e1 & Hc & _ & _ & -> & _)
                | (creds & st1 & service & Hc & _ & _ & _ & -> & _)]]];
    [done|..].
  all: by apply (get_credentials_disk _ _ _ _ _ _ Hc).
Qed.

Lemma run_action_disk a st path :
  path <> google_token_path settings ->
  fs (run_action settings env a st) !! path = fs st !! path.
Proof.
  intros Hp.
  assert (forall st0, fs (validate_credentials settings env st0).2 !! path
                      = fs st0 !! path) as Hval.
  { intros st0. rewrite validate_credentials_unfold.
    destruct (get_service _ _ _ _ _ st0) as [[service|e] st1] eqn:Hg;
      pose proof (get_service_disk _ _ _ _ _ _ Hg path Hp) as Hd.
    - destruct (getProfile_execute _ _ _ _); exact Hd.
    - exact Hd. }
  destruct a as [api_name api_version scopes| | |]; cbn [run_action].
  - unfold get_google_service.
    destruct (get_service settings env api_name api_version scopes st) as [r st'] eqn:Hg.
    exact (get_service_disk _ _ _ _ _ _ Hg path Hp).
  - apply Hval.
  - reflexivity.
  - rewrite refresh_credentials_unfold. rewrite Hval. reflexivity.
Qed.



(** X13: a stored token that loads but is neither valid nor refreshable
    is replaced: a call of [get_service] that returns a service has run
    the consent flow, refreshed nothing, and left the new credentials in
    the token file. *)
Theorem unrefreshable_token_reconsents api_name api_version scopes st service st' c :
  get_service settings env api_name api_version scopes st = (Ok service, st') ->
  EvTokenLoad (google_token_path settings)
    (requested_scopes settings api_name scopes) (Ok c) ∈ new_events st st' ->
  valid c = false -> expired c && truthy (refresh_token c) = false ->
  (exists f, EvRunLocalServer f (Ok (svc_creds service)) ∈ new_events st st')
  /\ existsb is_refresh (new_events st st') = false
  /\ fs st' !! google_token_path settings = Some (to_json (svc_creds service)).
Proof.
  intros H Hin Hv Hr. apply get_service_cases in H. cbv zeta in H.
  destruct H as [(cached & _ & _ & Hn & _)
                |[(e1 & st1 & _ & [=] & _)
                |[(creds & st1 & e1 & _ & [=] & _)
                | (creds & st1 & svc & Hc & [= <-] & Hcr & Hn & Hfs & _)]]];
    rewrite Hn in Hin |- *.
  - elem_inv Hin.
  - apply elem_of_app in Hin as [Hin|Hin]; [by elem_inv Hin|].
    destruct (get_credentials_reconsent _ _ _ _ _ _ _ Hc Hin Hv Hr) as [Hnr Hok].
    destruct (Hok creds eq_refl) as [[f Hf] Hfile].
    rewrite Hcr, Hfs, existsb_app, Hnr.
    split; [exists f; apply elem_of_app; by right|done].
Qed.

End DiskService.

(** ** simple_google_auth.py *)

(** Start on a run of [Simple.credentials]. *)
Ltac run_simple H st :=
  unfold Simple.credentials in H; destruct st as [sv files t n];
  cbv zeta in H; hide_strings H; run_hyp H.

Section SimpleAuth.

Variable service_account_json : option string.
Variable env : Env.

Lemma simple_credentials_frame scopes st r st' :
  Simple.credentials service_account_json env scopes st = (r, st') ->
  _services st' = _services st /\ next_id st' = next_id st
  /\ trace st' = new_events st st' ++ trace st
  /\ existsb is_storage (new_events st st') = true
  /\ existsb is_service_call (new_events st st') = false
  /\ existsb is_log (new_events st st') = false
  /\ (forall path, path <> Simple.token_path -> fs st' !! path = fs st !! path).
Proof.
  intros H. run_simple H st.
  all: new_events_simpl; cbn [fs _services next_id trace].
  all: repeat split; try reflexivity.
  all: try (cbn [existsb is_storage orb]; rewrite ?orb_true_r; reflexivity).
  all: intros path Hp; by rewrite ?lookup_insert_ne.
Qed.

Lemma simple_credentials_failures scopes st r st' :
  Simple.credentials service_account_json env scopes st = (r, st') ->
  (forall e, EvTokenLoad Simple.token_path scopes (Raise e) ∈ new_events st st' ->
     r = Raise e
     /\ existsb is_interactive (new_events st st') = false
     /\ fs st' = fs st)
  /\ (forall c e, EvRefresh c (Raise e) ∈ new_events st st' ->
     r = Raise e
     /\ existsb is_interactive (new_events st st') = false
     /\ fs st' = fs st).
Proof.
  intros H. run_simple H st.
  all: new_events_simpl; cbn [fs].
  all: split; [ intros e0 Hin | intros c0 e0 Hin ].
  all: elem_inv Hin; by simplify_eq.
Qed.

Lemma simple_credentials_fresh_token scopes st r st' c' :
  Simple.credentials service_account_json env scopes st = (r, st') ->
  (exists c, EvRefresh c (Ok c') ∈ new_events st st')
  \/ (exists f, EvRunLocalServer f (Ok c') ∈ new_events st st') ->
  forall creds, r = Ok creds ->
    creds = c' /\ fs st' !! Simple.token_path = Some (to_json c').
Proof.
  intros H Hin creds ->. run_simple H st.
  all: new_events_simpl.
  all: destruct Hin as [[c0 Hin]|[f0 Hin]].
  all: elem_inv Hin.
  all: simplify_eq.
  all: cbn [fs]; by rewrite lookup_insert_eq.
Qed.

(** The three ways a call of [Simple.get_google_service] can go. *)
Lemma simple_service_cases api_name api_version scopes st r st' :
  Simple.get_google_service service_account_json env api_name api_version scopes st
    = (r, st') ->
  let sc := match scopes with None => Simple.default_scopes api_name | Some l => l end in
  let wrap e := Simple.exception ("Failed to create " +:+ api_name +:+ " service: "
                                  +:+ exc_msg e) in
  (exists e, Simple.credentials service_account_json env sc st = (Raise e, st')
             /\ r = Raise (wrap e))
  \/ (exists creds st1 e,
        Simple.credentials service_account_json env sc st = (Ok creds, st1)
        /\ r = Raise (wrap e)
        /\ st' = with_trace (EvBuild api_name api_version creds (Raise e) :: trace st1) st1)
  \/ (exists creds st1,
        Simple.credentials service_account_json env sc st = (Ok creds, st1)
        /\ r = Ok {| svc_id := next_id st1; svc_api := api_name;
                     svc_version := api_version; svc_creds := creds |}
        /\ st' = with_next_id (S (next_id st1))
                   (with_trace (EvBuild api_name api_version creds r :: trace st1) st1)).
Proof.
  unfold Simple.get_google_service, try_except. cbv zeta. unfold bind at 1.
  destruct (Simple.credentials _ _ _ st) as [[creds|e] st1].
  - unfold discovery_build. destruct (build _ _ _ _ _) as [u|e].
    + intros [= <- <-]. right. right. by eexists _, _.
    + intros [= <- <-]. right. left. by eexists _, _, _.
  - intros [= <- <-]. left. by eexists.
Qed.

(** X14: [simple_google_auth.get_google_service] keeps nothing between
    calls: every call reads credential storage, leaves the manager's cache
    alone, logs nothing, can change no file but [token.json], and fails
    only with a plain [Exception]. *)
Theorem simple_call_is_self_contained api_name api_version scopes st r st' :
  Simple.get_google_service service_account_json env api_name api_version scopes st
    = (r, st') ->
  _services st' = _services st
  /\ existsb is_storage (new_events st st') = true
  /\ existsb is_log (new_events st st') = false
  /\ (forall path, path <> Simple.token_path -> fs st' !! path = fs st !! path)
  /\ (forall e, r = Raise e -> exc_class e = LibraryError "Exception").
Proof.
  intros H. apply simple_service_cases in H. cbv zeta in H.
  destruct H as [(e & Hc & ->)|[(creds & st1 & e & Hc & -> & ->)|(creds & st1 & Hc & -> & ->)]].
  all: destruct (simple_credentials_frame _ _ _ _ Hc) as (Hs & Hn & Ht & Hsto & _ & Hlog & Hfs).
  - repeat split; try done. by intros e0 [= <-].
  - cbn [_services fs with_trace].
    erewrite new_events_trans; [|exact Ht|by instantiate (1 := [_])].
    rewrite !existsb_app, Hsto, Hlog, orb_true_r.
    repeat split; try done. by intros e0 [= <-].
  - cbn [_services fs with_trace with_next_id].
    erewrite new_events_trans; [|exact Ht|by instantiate (1 := [_])].
    rewrite !existsb_app, Hsto, Hlog, orb_true_r.
    repeat split; done.
Qed.

(** X15: two successive calls of [simple_google_auth.get_google_service]
    with the same arguments never return the same object: the second
    reads credential storage and builds a service of its own. *)
Theorem simple_calls_never_share api_name api_version scopes st s1 st1 s2 st2 :
  Simple.get_google_service service_account_json env api_name api_version scopes st
    = (Ok s1, st1) ->
  Simple.get_google_service service_account_json env api_name api_version scopes st1
    = (Ok s2, st2) ->
  s1 <> s2
  /\ existsb is_storage (new_events st1 st2) = true
  /\ EvBuild api_name api_version (svc_creds s2) (Ok s2) ∈ new_events st1 st2.
Proof.
  intros H1 H2.
  apply simple_service_cases in H1. cbv zeta in H1.
  destruct H1 as [(e & _ & [=])|[(creds & sta & e & _ & [=] & _)|(c1 & sta & Hc1 & [= ->] & ->)]].
  apply simple_service_cases in H2. cbv zeta in H2.
  destruct H2 as [(e & _ & [=])|[(creds & stb & e & _ & [=] & _)|(c2 & stb & Hc2 & [= ->] & ->)]].
  destruct (simple_credentials_frame _ _ _ _ Hc1) as (_ & Hn1 & _).
  destruct (simple_credentials_frame _ _ _ _ Hc2) as (_ & Hn2 & Ht & Hsto & _).
  split.
  - intros [= Hid _]. rewrite Hn2 in Hid. cbn [next_id with_next_id with_trace] in Hid. lia.
  - erewrite new_events_trans; [|exact Ht|by instantiate (1 := [_])].
    rewrite existsb_app, Hsto, orb_true_r. split; [done|].
    apply elem_of_app. left. cbn [svc_creds]. elem_solve.
Qed.

(** X16: unlike [GoogleServiceManager], the simple module has no handler
    around the token load: a token file that cannot be read makes the call
    fail with that error, no consent flow is started and the disk is left
    as it was. *)
Theorem simple_unreadable_token_raises api_name api_version scopes st r st' e :
  Simple.get_google_service service_account_json env api_name api_version scopes st
    = (r, st') ->
  EvTokenLoad Simple.token_path
    (match scopes with None => Simple.default_scopes api_name | Some l => l end)
    (Raise e) ∈ new_events st st' ->
  r = Raise (Simple.exception ("Failed to create " +:+ api_name +:+ " service: "
                               +:+ exc_msg e))
  /\ existsb is_interactive (new_events st st') = false
  /\ fs st' = fs st.
Proof.
  intros H Hin. apply simple_service_cases in H. cbv zeta in H.
  destruct H as [(e1 & Hc & ->)|[(creds & st1 & e1 & Hc & -> & ->)|(creds & st1 & Hc & -> & ->)]].
  all: destruct (simple_credentials_frame _ _ _ _ Hc) as (_ & _ & Ht & _).
  all: destruct (simple_credentials_failures _ _ _ _ Hc) as [Hload _].
  - by destruct (Hload _ Hin) as ([= ->] & Hi & Hf).
  - erewrite new_events_trans in Hin; [|exact Ht|by instantiate (1 := [_])].
    apply elem_of_app in Hin as [Hin|Hin]; [by elem_inv Hin|].
    by destruct (Hload _ Hin) as [? _].
  - erewrite new_events_trans in Hin; [|exact Ht|by instantiate (1 := [_])].
    apply elem_of_app in Hin as [Hin|Hin]; [by elem_inv Hin|].
    by destruct (Hload _ Hin) as [? _].
Qed.

(** X17: in the simple module too a failed refresh is raised, wrapped
    once; no consent flow is started and nothing is written. *)
Theorem simple_refresh_failure_raises api_name api_version scopes st r st' c e :
  Simple.get_google_service service_account_json env api_name api_version scopes st
    = (r, st') ->
  EvRefresh c (Raise e) ∈ new_events st st' ->
  r = Raise (Simple.exception ("Failed to create " +:+ api_name +:+ " service: "
                               +:+ exc_msg e))
  /\ existsb is_interactive (new_events st st') = false
  /\ fs st' = fs st.
Proof.
  intros H Hin. apply simple_service_cases in H. cbv zeta in H.
  destruct H as [(e1 & Hc & ->)|[(creds & st1 & e1 & Hc & -> & ->)|(creds & st1 & Hc & -> & ->)]].
  all: destruct (simple_credentials_frame _ _ _ _ Hc) as (_ & _ & Ht & _).
  all: destruct (simple_credentials_failures _ _ _ _ Hc) as [_ Hrefresh].
  - by destruct (Hrefresh _ _ Hin) as ([= ->] & Hi & Hf).
  - erewrite new_events_trans in Hin; [|exact Ht|by instantiate (1 := [_])].
    apply elem_of_app in Hin as [Hin|Hin]; [by elem_inv Hin|].
    by destruct (Hrefresh _ _ Hin) as [? _].
  - erewrite new_events_trans in Hin; [|exact Ht|by instantiate (1 := [_])].
    apply elem_of_app in Hin as [Hin|Hin]; [by elem_inv Hin|].
    by destruct (Hrefresh _ _ Hin) as [? _].
Qed.

(** X18: in the simple module too, credentials that were refreshed or
    newly consented are in [token.json] when the call returns, and the
    service carries them. *)
Theorem simple_token_is_saved api_name api_version scopes st service st' c' :
  Simple.get_google_service service_account_json env api_name api_version scopes st
    = (Ok service, st') ->
  (exists c, EvRefresh c (Ok c') ∈ new_events st st')
  \/ (exists f, EvRunLocalServer f (Ok c') ∈ new_events st st') ->
  fs st' !! Simple.token_path = Some (to_json c')
  /\ svc_creds service = c'.
Proof.
  intros H Hin. apply simple_service_cases in H. cbv zeta in H.
  destruct H as [(e1 & _ & [=])|[(creds & st1 & e1 & _ & [=] & _)|(creds & st1 & Hc & [= ->] & ->)]].
  destruct (simple_credentials_frame _ _ _ _ Hc) as (_ & _ & Ht & _).
  erewrite new_events_trans in Hin; [|exact Ht|by instantiate (1 := [_])].
  assert ((exists c, EvRefresh c (Ok c') ∈ new_events st st1)
          \/ (exists f, EvRunLocalServer f (Ok c') ∈ new_events st st1)) as Hin1.
  { destruct Hin as [[c Hin]|[f Hin]];
      apply elem_of_app in Hin as [Hin|Hin]; try (by elem_inv Hin); eauto. }
  destruct (simple_credentials_fresh_token _ _ _ _ _ Hc Hin1 creds eq_refl) as (-> & Hf).
  done.
Qed.

End SimpleAuth.

(** X19: the two modules agree on the default scopes of gmail, calendar
    and drive (with the default settings); for any other API the simple
    module asks for the cloud-platform scope where the manager asks for
    none. *)
Theorem simple_default_scopes_agree api_name :
  (api_name ∈ ["gmail"; "calendar"; "drive"] ->
     Simple.default_scopes api_name = get_google_scopes default_settings api_name)
  /\ (api_name ∉ ["gmail"; "calendar"; "drive"] ->
     Simple.default_scopes api_name = ["https://www.googleapis.com/auth/cloud-platform"]
     /\ get_google_scopes default_settings api_name = []).
Proof.
  split.
  - intros Hin. elem_inv Hin; subst; reflexivity.
  - intros Hn.
    assert (api_name <> "gmail" /\ api_name <> "calendar" /\ api_name <> "drive")
      as (Hg & Hc & Hd).
    { repeat split; intros ->; apply Hn; set_solver. }
    split.
    + unfold Simple.default_scopes.
      rewrite (proj2 (String.eqb_neq _ _) Hg), (proj2 (String.eqb_neq _ _) Hc),
        (proj2 (String.eqb_neq _ _) Hd). reflexivity.
    + unfold get_google_scopes. cbv zeta.
      by rewrite !lookup_insert_ne, lookup_empty.
Qed.

(** ** config.py: [validate_config] *)


(** ** The properties above on concrete runs *)

Lemma refresh_credentials_rebuilds_witness :
  (refresh_credentials default_settings Demo.env Demo.after_first_call).1 = Ok true
  /\ existsb is_storage
       (new_events Demo.after_first_call
          (refresh_credentials default_settings Demo.env Demo.after_first_call).2)
     = true.
Proof.
  split; [vm_compute; reflexivity|].
  exact (proj2 (proj2 (refresh_credentials_rebuilds default_settings Demo.env
                         Demo.after_first_call))).
Defined.

Lemma failed_validation_keeps_handle_witness :
  get_service default_settings Faulty.env "gmail" "v1" None
    (Demo.start (Demo.with_token "valid"))
  = (Ok (Demo.gmail_service 0 (Demo.valid_creds Demo.gmail)),
     (get_service default_settings Faulty.env "gmail" "v1" None
        (Demo.start (Demo.with_token "valid"))).2)
  /\ (validate_credentials default_settings Faulty.env
        (Demo.start (Demo.with_token "valid"))).1 = Ok false
  /\ _services (validate_credentials default_settings Faulty.env
                  (Demo.start (Demo.with_token "valid"))).2
       !! service_key Faulty.env "gmail" "v1" (get_google_scopes default_settings "gmail")
     = Some (Demo.gmail_service 0 (Demo.valid_creds Demo.gmail)).
Proof.
  assert (get_service default_settings Faulty.env "gmail" "v1" None
            (Demo.start (Demo.with_token "valid"))
          = (Ok (Demo.gmail_service 0 (Demo.valid_creds Demo.gmail)),
             (get_service default_settings Faulty.env "gmail" "v1" None
                (Demo.start (Demo.with_token "valid"))).2)) as Hcall.
  { vm_compute. reflexivity. }
  split; [exact Hcall|].
  destruct (failed_validation_keeps_handle default_settings Faulty.env _ _ _
              Faulty.http_error Hcall eq_refl) as (Hfalse & Hkept & _).
  split; [exact Hfalse|exact Hkept].
Defined.

Lemma get_service_cache_grows_witness :
  _services Demo.after_first_call
  ⊆ _services (get_service default_settings Demo.env "drive" "v3" None
                 Demo.after_first_call).2.
Proof.
  exact (proj1 (get_service_cache_grows default_settings Demo.env "drive" "v3" None
                  Demo.after_first_call _ _ (surjective_pairing _))).
Defined.

Lemma cache_key_collides_witness :
  get_service default_settings Demo.env ("gmail" +:+ "_" +:+ "v1") "beta"
    (Some Demo.gmail) (Demo.start (Demo.with_token "valid"))
  = (Ok {| svc_id := 0; svc_api := "gmail_v1"; svc_version := "beta";
           svc_creds := Demo.valid_creds Demo.gmail |},
     (get_service default_settings Demo.env ("gmail" +:+ "_" +:+ "v1") "beta"
        (Some Demo.gmail) (Demo.start (Demo.with_token "valid"))).2)
  /\ (get_service default_settings Demo.env "gmail" ("v1" +:+ "_" +:+ "beta")
        (Some Demo.gmail)
        (get_service default_settings Demo.env ("gmail" +:+ "_" +:+ "v1") "beta"
           (Some Demo.gmail) (Demo.start (Demo.with_token "valid"))).2).1
     = Ok {| svc_id := 0; svc_api := "gmail_v1"; svc_version := "beta";
             svc_creds := Demo.valid_creds Demo.gmail |}.
Proof.
  assert (get_service default_settings Demo.env ("gmail" +:+ "_" +:+ "v1") "beta"
            (Some Demo.gmail) (Demo.start (Demo.with_token "valid"))
          = (Ok {| svc_id := 0; svc_api := "gmail_v1"; svc_version := "beta";
                   svc_creds := Demo.valid_creds Demo.gmail |},
             (get_service default_settings Demo.env ("gmail" +:+ "_" +:+ "v1") "beta"
                (Some Demo.gmail) (Demo.start (Demo.with_token "valid"))).2)) as Hfirst.
  { vm_compute. reflexivity. }
  split; [exact Hfirst|].
  exact (f_equal fst (cache_key_collides default_settings Demo.env "gmail" "v1" "beta"
                        Demo.gmail _ _ _ Hfirst)).
Defined.

Lemma different_hash_resolves_again_witness :
  hash_tuple Demo.env Demo.scopes_ab <> hash_tuple Demo.env Demo.scopes_ba
  /\ existsb is_storage
       (new_events Demo.after_scopes_ab
          (get_service default_settings Demo.env "gmail" "v1" (Some Demo.scopes_ba)
             Demo.after_scopes_ab).2)
     = true.
Proof.
  assert (hash_tuple Demo.env Demo.scopes_ab <> hash_tuple Demo.env Demo.scopes_ba) as Hh.
  { intros H. vm_compute in H. discriminate H. }
  split; [exact Hh|].
  refine (proj2 (proj2 (different_hash_resolves_again default_settings Demo.env
                          "gmail" "v1" Demo.scopes_ab Demo.scopes_ba
                          (Demo.start (Demo.with_token "valid")) _ Demo.after_scopes_ab
                          Hh _ (surjective_pairing _)))).
  vm_compute. reflexivity.
Defined.

Lemma cached_handle_ignores_disk_witness :
  (get_service default_settings Demo.env "gmail" "v1" None
     (with_fs Demo.no_files Demo.after_first_call)).1
  = Ok (Demo.gmail_service 0 (Demo.valid_creds Demo.gmail)).
Proof.
  refine (f_equal fst (cached_handle_ignores_disk default_settings Demo.env
                         "gmail" "v1" None (Demo.start (Demo.with_token "valid"))
                         (Demo.gmail_service 0 (Demo.valid_creds Demo.gmail))
                         Demo.after_first_call Demo.no_files _)).
  vm_compute. reflexivity.
Defined.

Lemma session_keeps_cache_sound_witness :
  cache_wf (run_actions default_settings Demo.env demo_session
              (Demo.start (Demo.with_token "valid")))
  /\ cache_distinct (run_actions default_settings Demo.env demo_session
                       (Demo.start (Demo.with_token "valid"))).
Proof.
  exact (session_keeps_cache_sound default_settings Demo.env demo_session
           (Demo.start (Demo.with_token "valid")) eq_refl).
Defined.

Lemma failure_is_logged_witness :
  exists cause,
    service_error_log "gmail" cause
      ∈ new_events (Demo.start Demo.no_files)
          (get_service default_settings Demo.env "gmail" "v1" None
             (Demo.start Demo.no_files)).2.
Proof.
  destruct (failure_is_logged default_settings Demo.env "gmail" "v1" None
              (Demo.start Demo.no_files)
              (service_error "gmail"
                 (authentication_error
                    {| exc_class := GoogleAuthError;
                       exc_msg := "Credentials file not found: credentials.json" |}))
              (get_service default_settings Demo.env "gmail" "v1" None
                 (Demo.start Demo.no_files)).2)
    as (cause & _ & Hlog & _).
  { vm_compute. reflexivity. }
  exists cause. exact Hlog.
Defined.




Lemma unrefreshable_token_reconsents_witness :
  EvTokenLoad "token.json" Demo.gmail (Ok (Faulty.stale_creds Demo.gmail))
    ∈ new_events (Demo.start (Demo.with_token "stale"))
        (get_service default_settings Faulty.env_stale "gmail" "v1" None
           (Demo.start (Demo.with_token "stale"))).2
  /\ existsb is_refresh
       (new_events (Demo.start (Demo.with_token "stale"))
          (get_service default_settings Faulty.env_stale "gmail" "v1" None
             (Demo.start (Demo.with_token "stale"))).2)
     = false
  /\ fs (get_service default_settings Faulty.env_stale "gmail" "v1" None
           (Demo.start (Demo.with_token "stale"))).2 !! "token.json"
     = Some "token=new refresh_token=1//new".
Proof.
  assert (EvTokenLoad "token.json" Demo.gmail (Ok (Faulty.stale_creds Demo.gmail))
    ∈ new_events (Demo.start (Demo.with_token "stale"))
        (get_service default_settings Faulty.env_stale "gmail" "v1" None
           (Demo.start (Demo.with_token "stale"))).2) as Hin.
  { vm_compute. elem_solve. }
  split; [exact Hin|].
  refine (proj2 (unrefreshable_token_reconsents default_settings Faulty.env_stale
                   "gmail" "v1" None (Demo.start (Demo.with_token "stale"))
                   (Demo.gmail_service 0 (Demo.consented_creds Demo.gmail)) _
                   (Faulty.stale_creds Demo.gmail) _ Hin eq_refl eq_refl)).
  vm_compute. reflexivity.
Defined.

Lemma simple_call_is_self_contained_witness :
  existsb is_storage
    (new_events Demo.after_first_call
       (Simple._get_gmail_service None Demo.env Demo.after_first_call).2)
  = true
  /\ _services (Simple._get_gmail_service None Demo.env Demo.after_first_call).2
     = _services Demo.after_first_call.
Proof.
  destruct (simple_call_is_self_contained None Demo.env "gmail" "v1" None
              Demo.after_first_call _ _ (surjective_pairing _))
    as (Hcache & Hsto & _).
  split; [exact Hsto|exact Hcache].
Defined.

Lemma simple_calls_never_share_witness :
  (Simple._get_drive_service None Demo.env (Demo.start (Demo.with_token "valid"))).1
  = Ok {| svc_id := 0; svc_api := "drive"; svc_version := "v3";
          svc_creds := Demo.valid_creds (drive_scopes default_settings) |}
  /\ (Simple._get_drive_service None Demo.env
        (Simple._get_drive_service None Demo.env
           (Demo.start (Demo.with_token "valid"))).2).1
     = Ok {| svc_id := 1; svc_api := "drive"; svc_version := "v3";
             svc_creds := Demo.valid_creds (drive_scopes default_settings) |}
  /\ {| svc_id := 0; svc_api := "drive"; svc_version := "v3";
        svc_creds := Demo.valid_creds (drive_scopes default_settings) |}
     <> {| svc_id := 1; svc_api := "drive"; svc_version := "v3";
           svc_creds := Demo.valid_creds (drive_scopes default_settings) |}.
Proof.
  split; [vm_compute; reflexivity|]. split; [vm_compute; reflexivity|].
  refine (proj1 (simple_calls_never_share None Demo.env "drive" "v3" None
                   (Demo.start (Demo.with_token "valid")) _
                   (Simple._get_drive_service None Demo.env
                      (Demo.start (Demo.with_token "valid"))).2
                   _
                   (Simple._get_drive_service None Demo.env
                      (Simple._get_drive_service None Demo.env
                         (Demo.start (Demo.with_token "valid"))).2).2
                   _ _)).
  - vm_compute. reflexivity.
  - vm_compute. reflexivity.
Defined.

Lemma simple_unreadable_token_raises_witness :
  EvTokenLoad "token.json" Demo.gmail
    (Raise (Demo.value_error "Expecting value: line 1 column 1 (char 0)"))
    ∈ new_events (Demo.start (Demo.with_token "garbage"))
        (Simple._get_gmail_service None Demo.env
           (Demo.start (Demo.with_token "garbage"))).2
  /\ (Simple._get_gmail_service None Demo.env
        (Demo.start (Demo.with_token "garbage"))).1
     = Raise (Simple.exception
                ("Failed to create " +:+ "gmail" +:+ " service: "
                 +:+ "Expecting value: line 1 column 1 (char 0)"))
  /\ existsb is_interactive
       (new_events (Demo.start (Demo.with_token "garbage"))
          (Simple._get_gmail_service None Demo.env
             (Demo.start (Demo.with_token "garbage"))).2)
     = false.
Proof.
  assert (EvTokenLoad "token.json" Demo.gmail
    (Raise (Demo.value_error "Expecting value: line 1 column 1 (char 0)"))
    ∈ new_events (Demo.start (Demo.with_token "garbage"))
        (Simple._get_gmail_service None Demo.env
           (Demo.start (Demo.with_token "garbage"))).2) as Hin.
  { vm_compute. elem_solve. }
  split; [exact Hin|].
  destruct (simple_unreadable_token_raises None Demo.env "gmail" "v1" None
              (Demo.start (Demo.with_token "garbage")) _ _ _
              (surjective_pairing _) Hin) as (Hr & Hni & _).
  split; [exact Hr|exact Hni].
Defined.

Lemma simple_refresh_failure_raises_witness :
  EvRefresh (Demo.revoked_creds Demo.gmail) (Raise Demo.refresh_error)
    ∈ new_events (Demo.start (Demo.with_token "revoked"))
        (Simple._get_gmail_service None Demo.env
           (Demo.start (Demo.with_token "revoked"))).2
  /\ (Simple._get_gmail_service None Demo.env
        (Demo.start (Demo.with_token "revoked"))).1
     = Raise (Simple.exception
                ("Failed to create " +:+ "gmail" +:+ " service: "
                 +:+ exc_msg Demo.refresh_error))
  /\ fs (Simple._get_gmail_service None Demo.env
           (Demo.start (Demo.with_token "revoked"))).2
     = Demo.with_token "revoked".
Proof.
  assert (EvRefresh (Demo.revoked_creds Demo.gmail) (Raise Demo.refresh_error)
    ∈ new_events (Demo.start (Demo.with_token "revoked"))
        (Simple._get_gmail_service None Demo.env
           (Demo.start (Demo.with_token "revoked"))).2) as Hin.
  { vm_compute. elem_solve. }
  split; [exact Hin|].
  destruct (simple_refresh_failure_raises None Demo.env "gmail" "v1" None
              (Demo.start (Demo.with_token "revoked")) _ _ _ _
              (surjective_pairing _) Hin) as (Hr & _ & Hfs).
  split; [exact Hr|exact Hfs].
Defined.

Lemma simple_token_is_saved_witness :
  EvRefresh (Demo.expired_creds Demo.gmail) (Ok (Demo.valid_creds Demo.gmail))
    ∈ new_events (Demo.start (Demo.with_token "expired"))
        (Simple._get_gmail_service None Demo.env
           (Demo.start (Demo.with_token "expired"))).2
  /\ fs (Simple._get_gmail_service None Demo.env
           (Demo.start (Demo.with_token "expired"))).2 !! "token.json"
     = Some "token=live refresh_token=1//refresh".
Proof.
  assert (EvRefresh (Demo.expired_creds Demo.gmail) (Ok (Demo.valid_creds Demo.gmail))
    ∈ new_events (Demo.start (Demo.with_token "expired"))
        (Simple._get_gmail_service None Demo.env
           (Demo.start (Demo.with_token "expired"))).2) as Hin.
  { vm_compute. elem_solve. }
  split; [exact Hin|].
  refine (proj1 (simple_token_is_saved None Demo.env "gmail" "v1" None
                   (Demo.start (Demo.with_token "expired"))
                   (Demo.gmail_service 0 (Demo.valid_creds Demo.gmail)) _
                   (Demo.valid_creds Demo.gmail) _ _)).
  - vm_compute. reflexivity.
  - left. exists (Demo.expired_creds Demo.gmail). exact Hin.
Defined.
